(** * The PDF processor Lambda ([amplify/functions/pdf-processor/handler.py])

    A shallow embedding of the two functions of the handler module,
    [extract_patient_data_with_claude_pdf_support] (the Extractor) and
    [handler] (the Request Adapter), and the properties the specification
    states about them.

    Conventions of the embedding.
    - A Python [str] is the list of its code points, a [bytes] object the list
      of its bytes; JSON-like Python values are the inductive [pyval].
    - Python exceptions are values of [exn]; code that may raise and that
      talks to Bedrock lives in the monad [M], whose state is the log of the
      [converse] calls issued so far.  [try ... except] is [try_except].
    - What the Python standard library computes and the source only calls
      ([str.lower], [base64.b64decode], [json.loads], [json.dumps]) is the
      interface [PyRuntime]; the theorems hold for every implementation of it.
      [RefRuntime] is a small implementation used to run the model on concrete
      inputs.
    - [print] writes to a standard output that encodes UTF-8 strictly: it
      raises [UnicodeEncodeError] on a text that holds a lone surrogate, and
      only on such a text.  The [print] calls of the Extractor whose text
      quotes a Bedrock response, a value parsed from it or an exception
      message are part of the model ([py_print]).  Its other [print] calls
      write fixed texts, numbers, the [repr] of a value (which escapes
      surrogates) or text decoded from UTF-8 (which has none); they cannot
      raise and are left out, and so are those of the handler (see
      [handler]).
    - [boto3.client(...)], which only builds the client object, succeeds. *)

From Stdlib Require Import List ZArith NArith Bool Lia.
From Stdlib.Strings Require Import Byte.
Import ListNotations.

Set Implicit Arguments.

(* ================================================================= *)
(** ** Python strings and bytes *)

(** A [str] is a sequence of Unicode code points. *)
Definition pystr := list N.

(** A [bytes] object. *)
Definition bytes := list byte.

(** String literals: ["abc"] stands for the list of the code points of its
    characters. *)
Inductive pystr_literal := LitNil | LitCons (c : N) (t : pystr_literal).

Definition parse_literal (bs : list byte) : pystr_literal :=
  fold_right (fun b t => LitCons (Byte.to_N b) t) LitNil bs.

Fixpoint print_literal (l : pystr_literal) : option (list byte) :=
  match l with
  | LitNil => Some []
  | LitCons c t =>
      match Byte.of_N c, print_literal t with
      | Some b, Some bs => Some (b :: bs)
      | _, _ => None
      end
  end.

Declare Scope py_scope.
Delimit Scope py_scope with py.
Set Warnings "-via-type-remapping,-via-type-mismatch".
String Notation pystr parse_literal print_literal
  (via pystr_literal mapping [[nil] => LitNil, [cons] => LitCons]) : py_scope.
Set Warnings "via-type-remapping,via-type-mismatch".
Bind Scope py_scope with pystr.
Open Scope py_scope.

(** The double quote character, which a literal cannot hold. *)
Definition dq : pystr := [34%N].

(** A bytes literal, [b'...']. *)
Definition blit (s : pystr) : bytes :=
  map (fun c => match Byte.of_N c with Some b => b | None => x00 end) s.

Fixpoint str_eqb (a b : pystr) : bool :=
  match a, b with
  | [], [] => true
  | x :: a', y :: b' => N.eqb x y && str_eqb a' b'
  | _, _ => false
  end.

(** [s.startswith(prefix)], for [str] and [bytes] alike. *)
Fixpoint startswith {A} (eqb : A -> A -> bool) (s prefix : list A) {struct prefix} : bool :=
  match prefix, s with
  | [], _ => true
  | p :: prefix', c :: s' => eqb p c && startswith eqb s' prefix'
  | _ :: _, [] => false
  end.

(** [s.find(sub)]: the lowest index where [sub] occurs, or [-1]. *)
Fixpoint find_from (s sub : pystr) (i : Z) : Z :=
  if startswith N.eqb s sub then i
  else match s with
       | [] => (-1)%Z
       | _ :: s' => find_from s' sub (i + 1)
       end.

Definition str_find (s sub : pystr) : Z := find_from s sub 0.

(** [s.rfind(sub)]: the highest index where [sub] occurs, or [-1]. *)
Fixpoint rfind_from (s sub : pystr) (i last : Z) : Z :=
  let last' := if startswith N.eqb s sub then i else last in
  match s with
  | [] => last'
  | _ :: s' => rfind_from s' sub (i + 1) last'
  end.

Definition str_rfind (s sub : pystr) : Z := rfind_from s sub 0 (-1).

(** [sub in s]. *)
Definition str_in (sub s : pystr) : bool := negb (str_find s sub =? -1)%Z.

(** [s[lo:hi]] with Python's clamping of the bounds (negative bounds count
    from the end). *)
Definition clamp_index (len i : Z) : Z :=
  if (i <? 0)%Z then Z.max (i + len) 0 else Z.min i len.

Definition py_slice {A} (s : list A) (lo hi : Z) : list A :=
  let len := Z.of_nat (length s) in
  let lo' := clamp_index len lo in
  let hi' := clamp_index len hi in
  firstn (Z.to_nat (hi' - lo')) (skipn (Z.to_nat lo') s).

(** Decimal and hexadecimal digits, for the texts Python formats. *)
Definition digit_char (d : N) : N :=
  if (d <? 10)%N then (48 + d)%N else (87 + d)%N.

Fixpoint dec_digits (fuel : nat) (n : N) (acc : pystr) : pystr :=
  match fuel with
  | O => acc
  | S fuel' =>
      let acc' := digit_char (n mod 10) :: acc in
      if (n <? 10)%N then acc' else dec_digits fuel' (n / 10) acc'
  end.

(** [str(n)] for a natural number. *)
Definition str_of_N (n : N) : pystr := dec_digits (S (N.to_nat (N.log2 n))) n [].

(** [str(z)] for an [int]. *)
Definition str_of_Z (z : Z) : pystr :=
  match z with
  | Z.neg p => 45%N :: str_of_N (Npos p)
  | _ => str_of_N (Z.to_N z)
  end.

(** [n] on [width] hexadecimal digits, lower case. *)
Fixpoint hex_digits (width : nat) (n : N) (acc : pystr) : pystr :=
  match width with
  | O => acc
  | S w => hex_digits w (n / 16) (digit_char (n mod 16) :: acc)
  end.

(* ================================================================= *)
(** ** Exceptions *)

(** The exception classes the handler's [except] clauses tell apart.
    [ValueError] stands for [ValueError] and its subclasses other than
    [json.JSONDecodeError] ([binascii.Error], [UnicodeDecodeError],
    [UnicodeEncodeError]);
    [Exception] for every other subclass of [Exception]. *)
Inductive exn_class :=
| JSONDecodeError
| ValueError
| TypeError
| AttributeError
| Exception.

(** A raised exception: its class and [str(e)]. *)
Record exn := mk_exn { exn_cls : exn_class; exn_str : pystr }.

(** [isinstance(e, json.JSONDecodeError)]. *)
Definition is_JSONDecodeError (e : exn) : bool :=
  match exn_cls e with JSONDecodeError => true | _ => false end.

(** [isinstance(e, (json.JSONDecodeError, ValueError))]:
    [JSONDecodeError] is a subclass of [ValueError]. *)
Definition is_ValueError (e : exn) : bool :=
  match exn_cls e with JSONDecodeError | ValueError => true | _ => false end.

(** [isinstance(e, Exception)]. *)
Definition is_Exception (e : exn) : bool := true.

(** The outcome of an expression that may raise. *)
Inductive result (A : Type) :=
| Return (a : A)
| Raise (e : exn).
Arguments Return {A} a.
Arguments Raise {A} e.

(* ================================================================= *)
(** ** UTF-8 decoding ([bytes.decode('utf-8', ...)])

    One step of CPython's decoder: what the bytes at the head of the input
    decode to, and how many of them the step covers.  An ill-formed sequence
    is reported on its maximal well-formed prefix (1 to 3 bytes), a sequence
    cut by the end of the input on all the bytes that are left. *)

Inductive utf8_reason := InvalidStart | InvalidContinuation | UnexpectedEnd.

Inductive utf8_item :=
| Decoded (c : N) (width : nat)
| Malformed (why : utf8_reason) (width : nat).

Definition is_continuation (b : N) : bool := ((0x80 <=? b) && (b <=? 0xBF))%N.

Definition utf8_step (b : N) (rest : list N) : utf8_item :=
  if (b <? 0x80)%N then Decoded b 1
  else if (b <? 0xC2)%N then Malformed InvalidStart 1
  else if (b <? 0xE0)%N then
    match rest with
    | [] => Malformed UnexpectedEnd 1
    | b2 :: _ =>
        if is_continuation b2
        then Decoded ((b - 0xC0) * 64 + (b2 - 0x80))%N 2
        else Malformed InvalidContinuation 1
    end
  else if (b <? 0xF0)%N then
    match rest with
    | [] => Malformed UnexpectedEnd 1
    | b2 :: rest2 =>
        if negb (is_continuation b2)
           || (if (b2 <? 0xA0)%N then (b =? 0xE0)%N else (b =? 0xED)%N)
        then Malformed InvalidContinuation 1
        else
          match rest2 with
          | [] => Malformed UnexpectedEnd 2
          | b3 :: _ =>
              if is_continuation b3
              then Decoded (((b - 0xE0) * 64 + (b2 - 0x80)) * 64 + (b3 - 0x80))%N 3
              else Malformed InvalidContinuation 2
          end
    end
  else if (b <? 0xF5)%N then
    match rest with
    | [] => Malformed UnexpectedEnd 1
    | b2 :: rest2 =>
        if negb (is_continuation b2)
           || (if (b2 <? 0x90)%N then (b =? 0xF0)%N else (b =? 0xF4)%N)
        then Malformed InvalidContinuation 1
        else
          match rest2 with
          | [] => Malformed UnexpectedEnd 2
          | b3 :: rest3 =>
              if negb (is_continuation b3) then Malformed InvalidContinuation 2
              else
                match rest3 with
                | [] => Malformed UnexpectedEnd 3
                | b4 :: _ =>
                    if is_continuation b4
                    then Decoded ((((b - 0xF0) * 64 + (b2 - 0x80)) * 64
                                   + (b3 - 0x80)) * 64 + (b4 - 0x80))%N 4
                    else Malformed InvalidContinuation 3
                end
          end
    end
  else Malformed InvalidStart 1.

Definition item_width (it : utf8_item) : nat :=
  match it with Decoded _ w | Malformed _ w => w end.

(** The decoder's run over the input: each item with the position it starts
    at.  [skip] counts the bytes the previous item still covers. *)
Fixpoint utf8_items (skip : nat) (pos : N) (s : list N) : list (N * N * utf8_item) :=
  match s with
  | [] => []
  | b :: rest =>
      match skip with
      | S k => utf8_items k (pos + 1) rest
      | O =>
          let it := utf8_step b rest in
          (pos, b, it) :: utf8_items (pred (item_width it)) (pos + 1) rest
      end
  end.

Definition utf8_scan (bs : bytes) : list (N * N * utf8_item) :=
  utf8_items 0 0 (map Byte.to_N bs).

(** [bs.decode('utf-8', errors='ignore')]: the malformed spans are dropped. *)
Definition decode_utf8_ignore (bs : bytes) : pystr :=
  flat_map (fun x => match snd x with Decoded c _ => [c] | Malformed _ _ => [] end)
           (utf8_scan bs).

Definition utf8_reason_str (why : utf8_reason) : pystr :=
  match why with
  | InvalidStart => "invalid start byte"
  | InvalidContinuation => "invalid continuation byte"
  | UnexpectedEnd => "unexpected end of data"
  end.

(** [str(e)] of the [UnicodeDecodeError] for a malformed span. *)
Definition unicode_decode_error (pos b : N) (why : utf8_reason) (width : nat) : exn :=
  mk_exn ValueError
    (match width with
     | 1%nat => "'utf-8' codec can't decode byte 0x" ++ hex_digits 2 b []
                ++ " in position " ++ str_of_N pos
     | _ => "'utf-8' codec can't decode bytes in position " ++ str_of_N pos
            ++ "-" ++ str_of_N (pos + N.of_nat width - 1)
     end ++ ": " ++ utf8_reason_str why).

(** [bs.decode('utf-8')]: the first malformed span raises. *)
Fixpoint decode_strict (items : list (N * N * utf8_item)) : result pystr :=
  match items with
  | [] => Return []
  | (pos, b, Malformed why w) :: _ => Raise (unicode_decode_error pos b why w)
  | (_, _, Decoded c _) :: items' =>
      match decode_strict items' with
      | Return s => Return (c :: s)
      | Raise e => Raise e
      end
  end.

Definition decode_utf8 (bs : bytes) : result pystr := decode_strict (utf8_scan bs).

(* ================================================================= *)
(** ** Diagnostics ([print])

    [print(text)] encodes [text] for the standard output.  UTF-8 has an
    encoding for every code point but the surrogates: on the first surrogate
    the encoder raises [UnicodeEncodeError], a [ValueError], reporting the
    run of surrogates that starts there. *)

Definition is_surrogate (c : N) : bool := ((0xD800 <=? c) && (c <=? 0xDFFF))%N.

(** The text holds no surrogate. *)
Definition printable (text : pystr) : bool :=
  forallb (fun c => negb (is_surrogate c)) text.

(** The number of surrogates at the head of a text. *)
Fixpoint surrogate_run (s : pystr) : N :=
  match s with
  | [] => 0%N
  | c :: s' => if is_surrogate c then (1 + surrogate_run s')%N else 0%N
  end.

(** [str(e)] of the [UnicodeEncodeError] for the [run] surrogates found at
    [pos], the first of which is [c]. *)
Definition unicode_encode_error (pos c run : N) : exn :=
  mk_exn ValueError
    ("'utf-8' codec can't encode "
     ++ (if (run =? 1)%N
         then "character '\u" ++ hex_digits 4 c [] ++ "' in position " ++ str_of_N pos
         else "characters in position " ++ str_of_N pos
              ++ "-" ++ str_of_N (pos + run - 1))
     ++ ": surrogates not allowed").

Fixpoint encode_utf8_from (pos : N) (text : pystr) : result unit :=
  match text with
  | [] => Return tt
  | c :: rest =>
      if is_surrogate c
      then Raise (unicode_encode_error pos c (1 + surrogate_run rest))
      else encode_utf8_from (pos + 1) rest
  end.

Definition py_print (text : pystr) : result unit := encode_utf8_from 0 text.

(* ================================================================= *)
(** ** Python values *)

(** The values that travel through the handler: what [json.loads] builds and
    [json.dumps] prints.  A [dict] keeps its keys in insertion order.  [F] is
    the type of [float]s. *)
#[warnings="-register-all"]
Inductive pyval (F : Type) : Type :=
| PNone
| PBool (b : bool)
| PInt (z : Z)
| PFloat (f : F)
| PStr (s : pystr)
| PList (l : list (pyval F))
| PDict (d : list (pystr * pyval F)).
Arguments PNone {F}.
Arguments PBool {F} b.
Arguments PInt {F} z.
Arguments PFloat {F} f.
Arguments PStr {F} s.
Arguments PList {F} l.
Arguments PDict {F} d.

(** [type(v).__name__]. *)
Definition type_name {F} (v : pyval F) : pystr :=
  match v with
  | PNone => "NoneType"
  | PBool _ => "bool"
  | PInt _ => "int"
  | PFloat _ => "float"
  | PStr _ => "str"
  | PList _ => "list"
  | PDict _ => "dict"
  end.

(** [v == s] for a [str] constant [s]. *)
Definition py_eq_str {F} (v : pyval F) (s : pystr) : bool :=
  match v with
  | PStr t => str_eqb t s
  | _ => false
  end.

(** [isinstance(v, dict)]. *)
Definition is_dict {F} (v : pyval F) : bool :=
  match v with PDict _ => true | _ => false end.

Fixpoint dict_lookup {V} (d : list (pystr * V)) (k : pystr) : option V :=
  match d with
  | [] => None
  | (k', v) :: d' => if str_eqb k' k then Some v else dict_lookup d' k
  end.

(** [d.get(k, default)]. *)
Definition dict_get {V} (d : list (pystr * V)) (k : pystr) (default : V) : V :=
  match dict_lookup d k with
  | Some v => v
  | None => default
  end.

(** [k in d]. *)
Definition dict_has {V} (d : list (pystr * V)) (k : pystr) : bool :=
  match dict_lookup d k with
  | Some _ => true
  | None => false
  end.

(** [v.get(k, default)] on an arbitrary value: only a [dict] has [get]. *)
Definition py_get {F} (v : pyval F) (k : pystr) (default : pyval F) : result (pyval F) :=
  match v with
  | PDict d => Return (dict_get d k default)
  | _ => Raise (mk_exn AttributeError
                  ("'" ++ type_name v ++ "' object has no attribute 'get'"))
  end.

(* ================================================================= *)
(** ** The Python runtime the handler calls into *)

Class PyRuntime := {
  (** the type of [float] values, and [bool(x)] on them *)
  pyfloat : Type;
  float_bool : pyfloat -> bool;
  (** [s.lower()] *)
  str_lower : pystr -> pystr;
  (** [base64.b64decode(v)] *)
  b64decode : pyval pyfloat -> result bytes;
  (** [json.loads(v)] *)
  json_loads : pyval pyfloat -> result (pyval pyfloat);
  (** [json.dumps(v)] *)
  json_dumps : pyval pyfloat -> pystr;
  (** the empty text is not JSON, and a JSON text that starts with an
      opening brace is an object *)
  json_loads_empty : forall v, json_loads (PStr []) <> Return v;
  json_loads_object :
    forall s v, json_loads (PStr (123%N :: s)) = Return v -> is_dict v = true;
  (** the messages of the exceptions [b64decode] and [json.loads] raise are
      made of fixed words, numbers and type names: they hold no surrogate *)
  b64decode_error_printable :
    forall v e, b64decode v = Raise e -> printable (exn_str e) = true;
  json_loads_error_printable :
    forall v e, json_loads v = Raise e -> printable (exn_str e) = true
}.

(* ================================================================= *)
(** ** Calls to Bedrock, and the monad of the handler *)

(** The instruction text of a [converse] call.  The four literals of the
    source, by where they are written. *)
Inductive prompt :=
| SIMPLIFIED        (** "Please analyze this PDF document and extract patient
                        information. Look for names and dates. ..." *)
| STANDARD          (** "You are a medical document analysis AI specialized
                        in extracting patient information ..." *)
| ALT_SIMPLIFIED    (** "Extract patient information from this PDF. ..." *)
| ALT_OTHER_MODEL   (** "Analyze this PDF and extract patient data. ..." *).

(** One [bedrock.converse(modelId=..., messages=..., inferenceConfig=...)]:
    a single user message made of the instruction and the attached document.
    [inferenceConfig] is the same constant in every call
    ([maxTokens] 2000, [temperature] 0.1). *)
Record Request := {
  modelId : pystr;
  instruction : prompt;
  document_name : pystr;
  document_bytes : bytes
}.

(** The inference capability: given the calls already made and the call at
    hand, either the text [response['output']['message']['content'][0]['text']]
    or the exception the call (or reading its response) raises. *)
Definition Bedrock := list Request -> Request -> result pystr.

(** Computations that may raise and that log their Bedrock calls. *)
Definition M (A : Type) := list Request -> result A * list Request.

Definition ret {A} (a : A) : M A := fun log => (Return a, log).

Definition raise {A} (e : exn) : M A := fun log => (Raise e, log).

Definition lift {A} (r : result A) : M A := fun log => (r, log).

Definition bind {A B} (m : M A) (k : A -> M B) : M B :=
  fun log =>
    match m log with
    | (Return a, log') => k a log'
    | (Raise e, log') => (Raise e, log')
    end.

Notation "x <- m ;; k" := (bind m (fun x => k))
  (at level 61, m at next level, right associativity).

(** [try: body except <catches> as e: handler e]. *)
Definition try_except {A} (body : M A) (catches : exn -> bool) (handler : exn -> M A) : M A :=
  fun log =>
    match body log with
    | (Return a, log') => (Return a, log')
    | (Raise e, log') => if catches e then handler e log' else (Raise e, log')
    end.

Definition converse (bedrock : Bedrock) (req : Request) : M pystr :=
  fun log => (bedrock log req, log ++ [req]).

(** [print(text)]. *)
Definition print (text : pystr) : M unit := lift (py_print text).

(* ================================================================= *)
(** ** The Extractor and the Request Adapter *)

Section Handler.

Context {R : PyRuntime}.
Variable bedrock : Bedrock.

Local Abbreviation value := (pyval pyfloat).

(** [bool(v)]. *)
Definition truthy (v : value) : bool :=
  match v with
  | PNone => false
  | PBool b => b
  | PInt z => negb (z =? 0)%Z
  | PFloat f => float_bool f
  | PStr s => match s with [] => false | _ => true end
  | PList l => match l with [] => false | _ => true end
  | PDict d => match d with [] => false | _ => true end
  end.

(** The error-annotated record of the failure paths:
    [{'debugInfo': ..., 'firstName': '', 'lastName': '', 'dateOfBirth': ''}]. *)
Definition patient_record (debugInfo : pystr) : value :=
  PDict [("debugInfo", PStr debugInfo); ("firstName", PStr "");
         ("lastName", PStr ""); ("dateOfBirth", PStr "")].

Definition model_id : pystr := "anthropic.claude-3-5-sonnet-20241022-v2:0".

(** ["empty" in s.lower() or "blank" in s.lower()]. *)
Definition reports_empty (s : pystr) : bool :=
  str_in "empty" (str_lower s) || str_in "blank" (str_lower s).

(** The [messages] of the first call: the branch on ["1.3" in pdf_version]. *)
Definition first_request (pdf_bytes : bytes) (pdf_version : pystr) : Request :=
  if str_in "1.3" pdf_version
  then {| modelId := model_id; instruction := SIMPLIFIED;
          document_name := "medicalDocument"; document_bytes := pdf_bytes |}
  else {| modelId := model_id; instruction := STANDARD;
          document_name := "patientDocument"; document_bytes := pdf_bytes |}.

(** [alternative_approaches]: each with its ['name'] and its call. *)
Definition alternative_approaches (pdf_bytes : bytes) : list (pystr * Request) :=
  [("Simplified prompt",
    {| modelId := model_id; instruction := ALT_SIMPLIFIED;
       document_name := "patientFile"; document_bytes := pdf_bytes |});
   ("Different model",
    {| modelId := model_id; instruction := ALT_OTHER_MODEL;
       document_name := "medicalRecord"; document_bytes := pdf_bytes |})].

(** The [for i, approach in enumerate(alternative_approaches)] loop, from its
    turn [i] on.  The body's [try] yields [Some alt] when it assigns
    [claude_response] and breaks, [None] when the loop goes on (the [else]
    branch, or the [except Exception: continue]).  The [print] of the
    [except] clause is outside the [try]: when it raises, the loop is left. *)
Fixpoint try_alternatives (i : N) (approaches : list (pystr * Request))
    (claude_response : pystr) : M pystr :=
  match approaches with
  | [] => ret claude_response
  | approach :: rest =>
      outcome <- try_except
                   (alt_claude_response <- converse bedrock (snd approach) ;;
                    _ <- print ([0x1F504%N] ++ " Alternative " ++ str_of_N (i + 1)
                                ++ " response: " ++ py_slice alt_claude_response 0 200
                                ++ "...") ;;
                    if negb (str_in "empty" (str_lower alt_claude_response))
                       && negb (str_in "blank" (str_lower alt_claude_response))
                    then ret (Some alt_claude_response)
                    else ret None)
                   is_Exception
                   (fun alt_e =>
                      _ <- print ([0x26A0%N; 0xFE0F%N] ++ " Alternative approach "
                                  ++ str_of_N (i + 1) ++ " failed: " ++ exn_str alt_e) ;;
                      ret None) ;;
      match outcome with
      | Some alt_claude_response => ret alt_claude_response
      | None => try_alternatives (i + 1) rest claude_response
      end
  end.

(** "Check if Claude reports the document as empty": the response the
    Extractor goes on to parse. *)
Definition choose_response (pdf_bytes : bytes) (claude_response : pystr) : M pystr :=
  if reports_empty claude_response
  then try_alternatives 0 (alternative_approaches pdf_bytes) claude_response
  else ret claude_response.

(** [if 'debugInfo' in patient_data: print(f"... Claude debug info:
    {patient_data['debugInfo']}")].  A [str] is formatted as it is; the text
    of any other value is built with [repr], which escapes surrogates, and
    printing it cannot raise.  [patient_data] is a [dict] here (see
    [parse_claude_response]). *)
Definition print_debug_info (patient_data : value) : M unit :=
  match patient_data with
  | PDict d =>
      match dict_lookup d "debugInfo" with
      | Some (PStr debugInfo) =>
          print ([0x1F50D%N] ++ " Claude debug info: " ++ debugInfo)
      | _ => ret tt
      end
  | _ => ret tt
  end.

(** "Extract JSON from Claude's response": the inner [try] of the Extractor.
    A text that [json.loads] accepts here starts with a brace, so that
    [patient_data] is a [dict] ([json_loads_object], [json_loads_empty]). *)
Definition parse_claude_response (claude_response : pystr) : M value :=
  try_except
    (let json_start := str_find claude_response "{" in
     let json_end := (str_rfind claude_response "}" + 1)%Z in
     if (json_start =? -1)%Z || (json_end =? 0)%Z then
       _ <- print ("Full response: " ++ claude_response) ;;
       ret (patient_record ("No JSON response from Claude. Response: "
                            ++ py_slice claude_response 0 200))
     else
       let json_str := py_slice claude_response json_start json_end in
       _ <- print ([0x1F4CB%N] ++ " Extracted JSON string: " ++ json_str) ;;
       patient_data <- lift (json_loads (PStr json_str)) ;;
       _ <- print_debug_info patient_data ;;
       ret patient_data)
    is_ValueError
    (fun e =>
       _ <- print ([0x274C%N] ++ " Error parsing Claude response as JSON: "
                   ++ exn_str e) ;;
       _ <- print ([0x1F4C4%N] ++ " Full Claude response: " ++ claude_response) ;;
       ret (patient_record ("JSON parsing error: " ++ exn_str e
                            ++ ". Response: " ++ py_slice claude_response 0 200))).

Definition extract_patient_data_with_claude_pdf_support (pdf_content : pystr) : M value :=
  try_except
    (pdf_bytes <- lift (b64decode (PStr pdf_content)) ;;
     if startswith Byte.eqb pdf_bytes (blit "%PDF-") then
       let pdf_version := decode_utf8_ignore (py_slice pdf_bytes 0 8) in
       claude_response <- converse bedrock (first_request pdf_bytes pdf_version) ;;
       _ <- print ([0x1F4C4%N] ++ " Claude response preview: "
                   ++ py_slice claude_response 0 200 ++ "...") ;;
       claude_response <- choose_response pdf_bytes claude_response ;;
       parse_claude_response claude_response
     else
       ret (patient_record "Invalid PDF file - missing PDF header"))
    is_Exception
    (fun e =>
       _ <- print ("Error calling Bedrock with Claude PDF support: " ++ exn_str e) ;;
       ret (patient_record ("Bedrock Claude PDF support error: " ++ exn_str e))).

(** The headers of the preflight response. *)
Definition preflight_headers : value :=
  PDict [("Access-Control-Allow-Origin", PStr "*");
         ("Access-Control-Allow-Methods", PStr "POST, OPTIONS");
         ("Access-Control-Allow-Headers", PStr "Content-Type, Authorization")].

(** The ['headers'] literal every other response repeats. *)
Definition cors_headers : value :=
  PDict [("Content-Type", PStr "application/json");
         ("Access-Control-Allow-Origin", PStr "*");
         ("Access-Control-Allow-Methods", PStr "POST, OPTIONS, GET");
         ("Access-Control-Allow-Headers",
          PStr "Content-Type, X-Amz-Date, Authorization, X-Api-Key, X-Amz-Security-Token")].

(** [{'statusCode': status, 'headers': {...}, 'body': json.dumps(body)}]. *)
Definition http_response (status : Z) (body : value) : value :=
  PDict [("statusCode", PInt status); ("headers", cors_headers);
         ("body", PStr (json_dumps body))].

(** [{'success': False, 'error': error}]. *)
Definition failure (error : pystr) : value :=
  PDict [("success", PBool false); ("error", PStr error)].

(** The body after the "Check if body is base64 encoded" block: the value
    bound to [body], or the exception its [try] catches. *)
Definition decoded_body (event : list (pystr * value)) (body : value) : result value :=
  if truthy (dict_get event "isBase64Encoded" (PBool false)) then
    match b64decode body with
    | Return raw =>
        match decode_utf8 raw with
        | Return s => Return (PStr s)
        | Raise e => Raise e
        end
    | Raise e => Raise e
    end
  else Return body.

(** [handler(event, context)].  [event] is the invocation's JSON object;
    [context] is [None] or a Lambda context, given by its [aws_request_id].
    The [print] calls of the handler are left out, as they cannot raise.
    They write fixed texts, the length of the payload, the [repr] of the
    Extractor's record, the debugInfo of that record (the Extractor returns
    no debugInfo that it could not log itself) and, in the top-level [except]
    clause, the message of the [AttributeError] of a [get], of an exception
    of [json.loads] or of the [UnicodeEncodeError] of a [print]: none of these
    holds a surrogate. *)
Definition handler (event : list (pystr * value)) (context : option pystr) : M value :=
  try_except
    (let http_method := dict_get event "httpMethod" (PStr "") in
     if py_eq_str http_method "OPTIONS" then
       ret (PDict [("statusCode", PInt 200); ("headers", preflight_headers);
                   ("body", PStr "")])
     else if negb (py_eq_str http_method "POST") then
       ret (http_response 405
              (failure "Method not allowed. Only POST requests are supported."))
     else
       let body := dict_get event "body" (PStr "") in
       if negb (truthy body) then
         ret (http_response 400 (failure "No PDF content provided in request body."))
       else
         match decoded_body event body with
         | Raise e =>
             ret (http_response 400
                    (failure ("Failed to decode request body: " ++ exn_str e)))
         | Return body =>
             match json_loads body with
             | Raise e =>
                 if is_JSONDecodeError e then
                   ret (http_response 400
                          (failure ("Invalid JSON in request body: " ++ exn_str e)))
                 else raise e
             | Return request_data =>
                 pdf_content <- lift (py_get request_data "pdfContent" (PStr "")) ;;
                 if negb (truthy pdf_content) then
                   ret (http_response 400
                          (failure ("No PDF content found in request. Expected "
                                    ++ dq ++ "pdfContent" ++ dq ++ " field.")))
                 else
                   match pdf_content with
                   | PStr pdf_content =>
                       patient_data <-
                         extract_patient_data_with_claude_pdf_support pdf_content ;;
                       debugInfo <- lift (py_get patient_data "debugInfo"
                                            (PStr "No debug info available")) ;;
                       let processing_result :=
                         PDict [("success", PBool true);
                                ("message", PStr "PDF received and processed successfully");
                                ("contentLength", PInt (Z.of_nat (length pdf_content)));
                                ("timestamp",
                                 PStr (match context with
                                       | Some aws_request_id => aws_request_id
                                       | None => "unknown"
                                       end));
                                ("debugInfo", debugInfo);
                                ("patientData", patient_data)] in
                       if negb (dict_has event "httpMethod") then ret processing_result
                       else ret (http_response 200 processing_result)
                   | _ =>
                       ret (http_response 400 (failure "PDF content must be a string."))
                   end
             end
         end)
    is_Exception
    (fun e =>
       let error_result := failure ("Internal server error: " ++ exn_str e) in
       if negb (dict_has event "httpMethod") then ret error_result
       else ret (http_response 500 error_result)).

End Handler.

(* ================================================================= *)
(** ** A reference runtime

    A small implementation of [PyRuntime], to evaluate the model on concrete
    requests.  It has no [float]s: its [json.loads] reads objects, arrays,
    strings, integers, [true], [false] and [null], and rejects number
    literals with a fraction or an exponent; and its [lower] maps the ASCII
    capitals only.  The text of a [JSONDecodeError] is reproduced for the
    empty text only; for any other malformed text it is one fixed text. *)

Module Ref.

Abbreviation value := (pyval Empty_set).

Definition float_bool (f : Empty_set) : bool := match f with end.

Definition lower_char (c : N) : N :=
  if ((65 <=? c) && (c <=? 90))%N then (c + 32)%N else c.

Definition str_lower (s : pystr) : pystr := map lower_char s.

(** *** [base64.b64decode], after [binascii.a2b_base64] in its default,
    non-strict mode: characters outside the alphabet are skipped, a complete
    padding ends the data, and an incomplete last quad raises. *)

Definition b64_digit (c : N) : option N :=
  if ((65 <=? c) && (c <=? 90))%N then Some (c - 65)%N
  else if ((97 <=? c) && (c <=? 122))%N then Some (c - 71)%N
  else if ((48 <=? c) && (c <=? 57))%N then Some (c + 4)%N
  else if (c =? 43)%N then Some 62%N
  else if (c =? 47)%N then Some 63%N
  else None.

Definition to_byte (n : N) : byte :=
  match Byte.of_N (n mod 256) with Some b => b | None => x00 end.

Fixpoint a2b_base64 (s : pystr) (quad_pos : nat) (leftchar : N) (pads : nat)
    (out : bytes) : result bytes :=
  match s with
  | [] =>
      match quad_pos with
      | O => Return (rev out)
      | 1%nat =>
          Raise (mk_exn ValueError
                   ("Invalid base64-encoded string: number of data characters ("
                    ++ str_of_N (N.of_nat (length out) / 3 * 4 + 1)
                    ++ ") cannot be 1 more than a multiple of 4"))
      | _ => Raise (mk_exn ValueError "Incorrect padding")
      end
  | c :: s' =>
      if (c =? 61)%N then
        if (2 <=? quad_pos)%nat then
          if (4 <=? quad_pos + S pads)%nat then Return (rev out)
          else a2b_base64 s' quad_pos leftchar (S pads) out
        else a2b_base64 s' quad_pos leftchar pads out
      else
        match b64_digit c with
        | None => a2b_base64 s' quad_pos leftchar pads out
        | Some d =>
            match quad_pos with
            | O => a2b_base64 s' 1 d 0 out
            | 1%nat => a2b_base64 s' 2 (N.land d 0xf) 0
                         (to_byte (N.lor (N.shiftl leftchar 2) (N.shiftr d 4)) :: out)
            | 2%nat => a2b_base64 s' 3 (N.land d 3) 0
                         (to_byte (N.lor (N.shiftl leftchar 4) (N.shiftr d 2)) :: out)
            | _ => a2b_base64 s' 0 0 0
                     (to_byte (N.lor (N.shiftl leftchar 6) d) :: out)
            end
        end
  end.

Definition b64decode (v : value) : result bytes :=
  match v with
  | PStr s =>
      if forallb (fun c => (c <? 128)%N) s then a2b_base64 s 0 0 0 []
      else Raise (mk_exn ValueError "string argument should contain only ASCII characters")
  | _ =>
      Raise (mk_exn TypeError
               ("argument should be a bytes-like object or ASCII string, not '"
                ++ type_name v ++ "'"))
  end.

(** *** [json.loads] *)

Definition is_ws (c : N) : bool :=
  ((c =? 32) || (c =? 9) || (c =? 10) || (c =? 13))%N.

Fixpoint skip_ws (s : pystr) : pystr :=
  match s with
  | c :: s' => if is_ws c then skip_ws s' else s
  | [] => []
  end.

Definition hex_value (c : N) : option N :=
  if ((48 <=? c) && (c <=? 57))%N then Some (c - 48)%N
  else if ((97 <=? c) && (c <=? 102))%N then Some (c - 87)%N
  else if ((65 <=? c) && (c <=? 70))%N then Some (c - 55)%N
  else None.

(** The four hexadecimal digits of a [\uXXXX] escape. *)
Definition hex4 (s : pystr) : option (N * pystr) :=
  match s with
  | a :: b :: c :: d :: r =>
      match hex_value a, hex_value b, hex_value c, hex_value d with
      | Some a, Some b, Some c, Some d => Some (((a * 16 + b) * 16 + c) * 16 + d, r)%N
      | _, _, _, _ => None
      end
  | _ => None
  end.

(** The character an escape stands for, after its backslash. *)
Definition unescape (s : pystr) : option (N * pystr) :=
  match s with
  | [] => None
  | e :: r =>
      if (e =? 34)%N then Some (34, r)%N
      else if (e =? 92)%N then Some (92, r)%N
      else if (e =? 47)%N then Some (47, r)%N
      else if (e =? 98)%N then Some (8, r)%N
      else if (e =? 102)%N then Some (12, r)%N
      else if (e =? 110)%N then Some (10, r)%N
      else if (e =? 114)%N then Some (13, r)%N
      else if (e =? 116)%N then Some (9, r)%N
      else if (e =? 117)%N then
        match hex4 r with
        | Some (hi, r') =>
            if ((0xD800 <=? hi) && (hi <=? 0xDBFF))%N then
              match r' with
              | 92%N :: 117%N :: r'' =>
                  match hex4 r'' with
                  | Some (lo, r''') =>
                      if ((0xDC00 <=? lo) && (lo <=? 0xDFFF))%N
                      then Some (0x10000 + ((hi - 0xD800) * 1024 + (lo - 0xDC00)), r''')%N
                      else Some (hi, r')
                  | None => Some (hi, r')
                  end
              | _ => Some (hi, r')
              end
            else Some (hi, r')
        | None => None
        end
      else None
  end.

(** A string, after its opening quote: its content and what follows the
    closing quote. *)
Fixpoint parse_string (fuel : nat) (s acc : pystr) : option (pystr * pystr) :=
  match fuel with
  | O => None
  | S fuel' =>
      match s with
      | [] => None
      | c :: r =>
          if (c =? 34)%N then Some (rev acc, r)
          else if (c =? 92)%N then
            match unescape r with
            | Some (u, r') => parse_string fuel' r' (u :: acc)
            | None => None
            end
          else if (c <? 32)%N then None
          else parse_string fuel' r (c :: acc)
      end
  end.

Fixpoint parse_digits (s : pystr) (acc : Z) : Z * pystr :=
  match s with
  | c :: r =>
      if ((48 <=? c) && (c <=? 57))%N
      then parse_digits r (acc * 10 + Z.of_N (c - 48))
      else (acc, s)
  | [] => (acc, [])
  end.

(** An integer literal: [0] or a non-zero digit and more digits; a fraction
    or an exponent after it is a [float] literal, which is not read. *)
Definition parse_natural (s : pystr) : option (Z * pystr) :=
  match s with
  | c :: r =>
      if (c =? 48)%N then Some (0%Z, r)
      else if ((49 <=? c) && (c <=? 57))%N then Some (parse_digits s 0)
      else None
  | [] => None
  end.

Definition not_a_float (r : pystr) : bool :=
  match r with
  | c :: _ => negb ((c =? 46) || (c =? 101) || (c =? 69))%N
  | [] => true
  end.

Definition parse_int (s : pystr) : option (Z * pystr) :=
  match s with
  | c :: r =>
      match (if (c =? 45)%N then option_map (fun x => (- fst x, snd x)%Z) (parse_natural r)
             else parse_natural s) with
      | Some (z, r') => if not_a_float r' then Some (z, r') else None
      | None => None
      end
  | [] => None
  end.

(** [d[k] = v]: a key that is already there keeps its place. *)
Fixpoint dict_set {V} (d : list (pystr * V)) (k : pystr) (v : V) : list (pystr * V) :=
  match d with
  | [] => [(k, v)]
  | (k', v') :: d' => if str_eqb k' k then (k', v) :: d' else (k', v') :: dict_set d' k v
  end.

Fixpoint parse_value (fuel : nat) (s : pystr) : option (value * pystr) :=
  match fuel with
  | O => None
  | S fuel' =>
      match s with
      | [] => None
      | c :: r =>
          if (c =? 123)%N then
            match skip_ws r with
            | [] => None
            | c' :: r' =>
                if (c' =? 125)%N then Some (PDict [], r')
                else match parse_members fuel' (c' :: r') [] with
                     | Some (d, r'') => Some (PDict d, r'')
                     | None => None
                     end
            end
          else if (c =? 91)%N then
            match skip_ws r with
            | [] => None
            | c' :: r' =>
                if (c' =? 93)%N then Some (PList [], r')
                else match parse_elements fuel' (c' :: r') [] with
                     | Some (l, r'') => Some (PList l, r'')
                     | None => None
                     end
            end
          else if (c =? 34)%N then
            match parse_string (S (length r)) r [] with
            | Some (str, r') => Some (PStr str, r')
            | None => None
            end
          else if startswith N.eqb s "true" then Some (PBool true, skipn 4 s)
          else if startswith N.eqb s "false" then Some (PBool false, skipn 5 s)
          else if startswith N.eqb s "null" then Some (PNone, skipn 4 s)
          else match parse_int s with
               | Some (z, r') => Some (PInt z, r')
               | None => None
               end
      end
  end
with parse_members (fuel : nat) (s : pystr) (acc : list (pystr * value))
    : option (list (pystr * value) * pystr) :=
  match fuel with
  | O => None
  | S fuel' =>
      match s with
      | [] => None
      | c :: r =>
          if (c =? 34)%N then
            match parse_string (S (length r)) r [] with
            | Some (key, r1) =>
                match skip_ws r1 with
                | [] => None
                | c1 :: r2 =>
                    if (c1 =? 58)%N then
                      match parse_value fuel' (skip_ws r2) with
                      | Some (v, r3) =>
                          let acc' := dict_set acc key v in
                          match skip_ws r3 with
                          | [] => None
                          | c3 :: r4 =>
                              if (c3 =? 125)%N then Some (acc', r4)
                              else if (c3 =? 44)%N then parse_members fuel' (skip_ws r4) acc'
                              else None
                          end
                      | None => None
                      end
                    else None
                end
            | None => None
            end
          else None
      end
  end
with parse_elements (fuel : nat) (s : pystr) (acc : list value)
    : option (list value * pystr) :=
  match fuel with
  | O => None
  | S fuel' =>
      match parse_value fuel' s with
      | Some (v, r) =>
          match skip_ws r with
          | [] => None
          | c :: r' =>
              if (c =? 93)%N then Some (rev (v :: acc), r')
              else if (c =? 44)%N then parse_elements fuel' (skip_ws r') (v :: acc)
              else None
          end
      | None => None
      end
  end.

Definition json_decode_error : exn := mk_exn JSONDecodeError "invalid JSON text".

Definition json_loads (v : value) : result value :=
  match v with
  | PStr [] =>
      Raise (mk_exn JSONDecodeError "Expecting value: line 1 column 1 (char 0)")
  | PStr s =>
      match parse_value (S (length s)) (skip_ws s) with
      | Some (v, rest) =>
          match skip_ws rest with
          | [] => Return v
          | _ => Raise json_decode_error
          end
      | None => Raise json_decode_error
      end
  | _ =>
      Raise (mk_exn TypeError
               ("the JSON object must be str, bytes or bytearray, not " ++ type_name v))
  end.

(** *** [json.dumps], with its defaults: [ensure_ascii], and the separators
    [", "] and [": "]. *)

Definition escape_char (c : N) : pystr :=
  if (c =? 34)%N then [92; 34]%N
  else if (c =? 92)%N then [92; 92]%N
  else if (c =? 10)%N then [92; 110]%N
  else if (c =? 13)%N then [92; 114]%N
  else if (c =? 9)%N then [92; 116]%N
  else if (c =? 8)%N then [92; 98]%N
  else if (c =? 12)%N then [92; 102]%N
  else if ((32 <=? c) && (c <=? 126))%N then [c]
  else if (c <? 0x10000)%N then [92; 117]%N ++ hex_digits 4 c []
  else
    let n := (c - 0x10000)%N in
    [92; 117]%N ++ hex_digits 4 (N.lor 0xD800 (N.land (N.shiftr n 10) 0x3FF)) []
    ++ [92; 117]%N ++ hex_digits 4 (N.lor 0xDC00 (N.land n 0x3FF)) [].

Definition dumps_str (s : pystr) : pystr := dq ++ flat_map escape_char s ++ dq.

Fixpoint join (sep : pystr) (l : list pystr) : pystr :=
  match l with
  | [] => []
  | [x] => x
  | x :: l' => x ++ sep ++ join sep l'
  end.

Fixpoint json_dumps (v : value) : pystr :=
  match v with
  | PNone => "null"
  | PBool true => "true"
  | PBool false => "false"
  | PInt z => str_of_Z z
  | PFloat f => match f with end
  | PStr s => dumps_str s
  | PList l => "[" ++ join ", " (map json_dumps l) ++ "]"
  | PDict d =>
      "{" ++ join ", " (map (fun kv => match kv with
                                       | (k, x) => dumps_str k ++ ": " ++ json_dumps x
                                       end) d) ++ "}"
  end.

End Ref.

(** A scripted Bedrock, for tests: the n-th call of an invocation gets the
    n-th outcome of the script. *)
Definition scripted (script : list (result pystr)) : Bedrock :=
  fun log _ => nth (length log) script (Raise (mk_exn Exception "no scripted response")).

(** A text written with apostrophes for its double quotes. *)
Definition quoted (s : pystr) : pystr :=
  map (fun c => if (c =? 39)%N then 34%N else c) s.

(* ================================================================= *)
(** ** Vocabulary of the statements *)

Section Vocabulary.

Context {R : PyRuntime}.

Local Abbreviation value := (pyval pyfloat).

(** The record the outer [except Exception] builds. *)
Definition bedrock_error_record (e : exn) : value :=
  patient_record ("Bedrock Claude PDF support error: " ++ exn_str e).

(** The outer [except Exception as e] clause: it logs the message, then
    returns the record. *)
Definition report_error (e : exn) : M value :=
  _ <- print ("Error calling Bedrock with Claude PDF support: " ++ exn_str e) ;;
  ret (bedrock_error_record e).

(** The Extractor from the point where the response to parse is chosen: the
    parsing block, inside the outer [try]. *)
Definition parse_guarded (claude_response : pystr) : M value :=
  try_except (parse_claude_response claude_response) is_Exception report_error.

(** The first call of an invocation on the document [pdf_bytes]. *)
Definition primary_request (pdf_bytes : bytes) : Request :=
  first_request pdf_bytes (decode_utf8_ignore (py_slice pdf_bytes 0 8)).

(** What one retry does to the loop.  Its text is adopted when the preview
    of it can be logged and it does not report an empty document.  The retry
    is skipped, and the loop goes on, when the text reports emptiness, when
    logging its preview raises, or when the call raises an exception whose
    message can be logged.  When logging that message raises, the loop is
    left with the exception of the [print]. *)
Inductive retry :=
| Adopt (alt : pystr)
| Skip
| Abort.

Definition retry_outcome (outcome : result pystr) : retry :=
  match outcome with
  | Return alt =>
      if printable (py_slice alt 0 200) && negb (reports_empty alt)
      then Adopt alt else Skip
  | Raise e => if printable (exn_str e) then Skip else Abort
  end.

(** The inner [except (json.JSONDecodeError, ValueError) as e] clause: it
    logs the message and the whole response, then returns the record. *)
Definition parse_error_record (e : exn) (claude_response : pystr) : value :=
  patient_record ("JSON parsing error: " ++ exn_str e
                  ++ ". Response: " ++ py_slice claude_response 0 200).

Definition report_parse_error (claude_response : pystr) (e : exn) : M value :=
  _ <- print ([0x274C%N] ++ " Error parsing Claude response as JSON: " ++ exn_str e) ;;
  _ <- print ([0x1F4C4%N] ++ " Full Claude response: " ++ claude_response) ;;
  ret (parse_error_record e claude_response).

(** The debugInfo of a parsed object, when it is a string, can be logged. *)
Definition debug_info_printable (patient_data : value) : bool :=
  match patient_data with
  | PDict d =>
      match dict_lookup d "debugInfo" with
      | Some (PStr debugInfo) => printable debugInfo
      | _ => true
      end
  | _ => true
  end.

(** What the Extractor returns: a mapping, which is an error-annotated
    record or the object [json.loads] read, and whose debugInfo can be
    logged. *)
Definition extractor_result (v : value) : Prop :=
  is_dict v = true
  /\ debug_info_printable v = true
  /\ ((exists debugInfo, v = patient_record debugInfo)
      \/ (exists json_str, json_loads (PStr json_str) = Return v)).

(** The two retries, in the order of [alternative_approaches]. *)
Definition first_retry (pdf_bytes : bytes) : Request :=
  {| modelId := model_id; instruction := ALT_SIMPLIFIED;
     document_name := "patientFile"; document_bytes := pdf_bytes |}.

Definition second_retry (pdf_bytes : bytes) : Request :=
  {| modelId := model_id; instruction := ALT_OTHER_MODEL;
     document_name := "medicalRecord"; document_bytes := pdf_bytes |}.

(** The request passes the Adapter's validation and hands [pdf_content] to
    the Extractor: a POST whose body, decoded when flagged as base64, is a
    JSON object with a non-empty string under ["pdfContent"]. *)
Definition validated (event : list (pystr * value)) (pdf_content : pystr) : Prop :=
  py_eq_str (dict_get event "httpMethod" (PStr "")) "POST" = true
  /\ truthy (dict_get event "body" (PStr "")) = true
  /\ exists body request_data,
       decoded_body event (dict_get event "body" (PStr "")) = Return body
       /\ json_loads body = Return request_data
       /\ py_get request_data "pdfContent" (PStr "") = Return (PStr pdf_content)
       /\ pdf_content <> [].

(** The ['statusCode'] of a response. *)
Definition status_code (response : value) : option value :=
  match response with
  | PDict d => dict_lookup d "statusCode"
  | _ => None
  end.

End Vocabulary.

(** A computation only adds calls to the log. *)
Definition appends {A} (m : M A) : Prop :=
  forall log, exists calls, snd (m log) = log ++ calls.

(** A computation makes no call: it leaves the log as it is. *)
Definition silent {A} (m : M A) : Prop :=
  forall log, snd (m log) = log.

(** The characters of a decoder run. *)
Definition run_chars (items : list (N * N * utf8_item)) : pystr :=
  flat_map (fun x => match snd x with Decoded c _ => [c] | Malformed _ _ => [] end) items.

(** [base64] of [b'%PDF-1.4\n'] and of [b'hello']. *)
Definition pdf_1_4 : pystr := "JVBERi0xLjQK".
Definition pdf_1_4_bytes : bytes := [x25; x50; x44; x46; x2d; x31; x2e; x34; x0a].
Definition not_a_pdf : pystr := "aGVsbG8=".

(** [base64] of [b'%PDF-1.3\n']. *)
Definition pdf_1_3 : pystr := "JVBERi0xLjMK".
Definition pdf_1_3_bytes : bytes := [x25; x50; x44; x46; x2d; x31; x2e; x33; x0a].

(** Base64 as RFC 4648 writes it: quads of characters of the alphabet, the
    last quad possibly ending in one or two [=]. *)
Definition b64_alphabet (c : N) : bool :=
  match Ref.b64_digit c with Some _ => true | None => false end.

Fixpoint well_formed_base64 (s : pystr) : bool :=
  match s with
  | [] => true
  | a :: b :: c :: d :: rest =>
      b64_alphabet a && b64_alphabet b
      && match rest with
         | [] => (b64_alphabet c && (b64_alphabet d || (d =? 61)%N))
                 || ((c =? 61)%N && (d =? 61)%N)
         | _ => b64_alphabet c && b64_alphabet d && well_formed_base64 rest
         end
  | _ => false
  end.

(** A POST with the JSON text [body]. *)
Definition post (body : pystr) : list (pystr * Ref.value) :=
  [("httpMethod", PStr "POST"); ("body", PStr body)].


(** An OPTIONS request that also carries a body and the base64 flag, and
    a POST flagged as base64. *)
Definition options_with_body : list (pystr * Ref.value) :=
  [("httpMethod", PStr "OPTIONS"); ("body", PStr "not even JSON");
   ("isBase64Encoded", PBool true)].

Definition post_base64 (body : pystr) : list (pystr * Ref.value) :=
  [("httpMethod", PStr "POST"); ("body", PStr body); ("isBase64Encoded", PBool true)].

(* ================================================================= *)
(** ** Texts that can be printed, and the reference runtime *)

(** Texts without surrogates: concatenations, numbers, type names. *)
Lemma printable_app (a b : pystr) : printable (a ++ b) = printable a && printable b.
Proof. apply forallb_app. Qed.

Lemma digit_char_printable (d : N) : (d < 16)%N -> is_surrogate (digit_char d) = false.
Proof.
  intros Hd. unfold is_surrogate, digit_char.
  destruct (d <? 10)%N; apply andb_false_intro1; apply N.leb_gt; lia.
Qed.

Lemma dec_digits_printable (fuel : nat) (n : N) (acc : pystr) :
  printable acc = true -> printable (dec_digits fuel n acc) = true.
Proof.
  revert n acc. induction fuel as [|fuel IH]; intros n acc Hacc; [exact Hacc|].
  cbn [dec_digits].
  assert (Hd : is_surrogate (digit_char (n mod 10)) = false).
  { apply digit_char_printable. pose proof (N.mod_lt n 10). lia. }
  assert (Hacc' : printable (digit_char (n mod 10) :: acc) = true).
  { cbn [printable forallb]. fold (printable acc). now rewrite Hd, Hacc. }
  destruct (n <? 10)%N; [exact Hacc' | now apply IH].
Qed.

Lemma str_of_N_printable (n : N) : printable (str_of_N n) = true.
Proof. now apply dec_digits_printable. Qed.

Lemma hex_digits_printable (width : nat) (n : N) (acc : pystr) :
  printable acc = true -> printable (hex_digits width n acc) = true.
Proof.
  revert n acc. induction width as [|w IH]; intros n acc Hacc; [exact Hacc|].
  cbn [hex_digits]. apply IH. cbn [printable forallb]. fold (printable acc).
  rewrite digit_char_printable, Hacc; [reflexivity|].
  pose proof (N.mod_lt n 16). lia.
Qed.

Lemma type_name_printable F (v : pyval F) : printable (type_name v) = true.
Proof. now destruct v. Qed.

Lemma printable_cons (c : N) (s : pystr) :
  is_surrogate c = false -> printable (c :: s) = printable s.
Proof. intros H. cbn [printable forallb]. now rewrite H. Qed.

Ltac printable_text :=
  repeat first
    [ reflexivity
    | rewrite printable_app
    | rewrite printable_cons by reflexivity
    | rewrite str_of_N_printable
    | rewrite type_name_printable
    | rewrite hex_digits_printable by reflexivity ].

Lemma a2b_base64_error_printable (s : pystr) (quad_pos : nat) (leftchar : N)
    (pads : nat) (out : bytes) (e : exn) :
  Ref.a2b_base64 s quad_pos leftchar pads out = Raise e -> printable (exn_str e) = true.
Proof.
  revert quad_pos leftchar pads out.
  induction s as [|c s IH]; intros quad_pos leftchar pads out; cbn [Ref.a2b_base64].
  - destruct quad_pos as [|[|q]]; intros [= <-]; cbn [exn_str]; printable_text.
  - destruct (c =? 61)%N.
    + destruct (2 <=? quad_pos)%nat; [|apply IH].
      destruct (4 <=? quad_pos + S pads)%nat; [discriminate | apply IH].
    + destruct (Ref.b64_digit c); [|apply IH].
      destruct quad_pos as [|[|[|q]]]; apply IH.
Qed.

(** The reference runtime.  Its laws hold by the shape of [Ref.json_loads]
    (the empty text has no value, and after an opening brace the parser only
    builds a [PDict]) and by the texts of its error messages. *)
#[export] Instance RefRuntime : PyRuntime.
Proof.
  refine {| pyfloat := Empty_set;
            float_bool := Ref.float_bool;
            str_lower := Ref.str_lower;
            b64decode := Ref.b64decode;
            json_loads := Ref.json_loads;
            json_dumps := Ref.json_dumps |}.
  4: { intros v e. unfold Ref.json_loads. destruct v as [| | | |s| |];
       try (intros [= <-]; cbn [exn_str]; printable_text).
       destruct s as [|c s]; [now intros [= <-]|].
       destruct (Ref.parse_value _ _) as [[v rest]|]; [|now intros [= <-]].
       destruct (Ref.skip_ws rest); [discriminate | now intros [= <-]]. }
  3: { intros v e. unfold Ref.b64decode. destruct v as [| | | |s| |];
       try (intros [= <-]; cbn [exn_str]; printable_text).
       destruct (forallb _ s); [apply a2b_base64_error_printable | now intros [= <-]]. }
  - discriminate.
  - intros s v. unfold Ref.json_loads.
    change (Ref.skip_ws (123%N :: s)) with (123%N :: s).
    cbn [Ref.parse_value length N.eqb Pos.eqb].
    destruct (Ref.skip_ws s) as [|c' r']; [discriminate|].
    destruct (c' =? 125)%N.
    + destruct (Ref.skip_ws r'); [|discriminate].
      intros [= <-]. reflexivity.
    + destruct (Ref.parse_members _ _ _) as [[d r'']|]; [|discriminate].
      destruct (Ref.skip_ws r''); [|discriminate].
      intros [= <-]. reflexivity.
Defined.

(* ================================================================= *)
(** ** Reasoning about [M] computations *)

Section MonadFacts.

Context {A B : Type}.

Lemma bind_Return (m : M A) (k : A -> M B) log a log' :
  m log = (Return a, log') -> bind m k log = k a log'.
Proof. unfold bind. intros ->. reflexivity. Qed.

Lemma bind_Raise (m : M A) (k : A -> M B) log e log' :
  m log = (Raise e, log') -> bind m k log = (Raise e, log').
Proof. unfold bind. intros ->. reflexivity. Qed.

Lemma try_except_bind (m : M A) (k : A -> M B) catches handler log a log' :
  m log = (Return a, log') ->
  try_except (bind m k) catches handler log = try_except (k a) catches handler log'.
Proof. unfold try_except, bind. intros ->. reflexivity. Qed.

Lemma try_except_Return (body : M A) catches handler log a log' :
  body log = (Return a, log') -> try_except body catches handler log = (Return a, log').
Proof. unfold try_except. intros ->. reflexivity. Qed.

Lemma try_except_caught (body : M A) catches handler log e log' :
  body log = (Raise e, log') -> catches e = true ->
  try_except body catches handler log = handler e log'.
Proof. unfold try_except. intros -> ->. reflexivity. Qed.

End MonadFacts.

Lemma appends_ret A (a : A) : appends (ret a).
Proof. intros log. exists []. cbn. now rewrite app_nil_r. Qed.

Lemma appends_raise A e : appends (@raise A e).
Proof. intros log. exists []. cbn. now rewrite app_nil_r. Qed.

Lemma appends_lift A (r : result A) : appends (lift r).
Proof. intros log. exists []. cbn. now rewrite app_nil_r. Qed.

Lemma appends_converse bedrock req : appends (converse bedrock req).
Proof. intros log. exists [req]. reflexivity. Qed.

Lemma appends_bind A B (m : M A) (k : A -> M B) :
  appends m -> (forall a, appends (k a)) -> appends (bind m k).
Proof.
  intros Hm Hk log. unfold bind.
  destruct (Hm log) as [c1 H1].
  destruct (m log) as [[a|e] log1]; cbn in H1; subst log1.
  - destruct (Hk a (log ++ c1)) as [c2 H2].
    exists (c1 ++ c2). now rewrite H2, app_assoc.
  - now exists c1.
Qed.

Lemma appends_try_except A (body : M A) catches handler :
  appends body -> (forall e, appends (handler e)) ->
  appends (try_except body catches handler).
Proof.
  intros Hb Hh log. unfold try_except.
  destruct (Hb log) as [c1 H1].
  destruct (body log) as [[a|e] log1]; cbn in H1; subst log1.
  - now exists c1.
  - destruct (catches e).
    + destruct (Hh e (log ++ c1)) as [c2 H2].
      exists (c1 ++ c2). now rewrite H2, app_assoc.
    + now exists c1.
Qed.

Create HintDb appends.
#[local] Hint Resolve appends_ret appends_raise appends_lift appends_converse
  appends_bind appends_try_except : appends.

Lemma silent_ret A (a : A) : silent (ret a).
Proof. now intros log. Qed.

Lemma silent_lift A (r : result A) : silent (lift r).
Proof. now intros log. Qed.

Lemma silent_bind A B (m : M A) (k : A -> M B) :
  silent m -> (forall a, silent (k a)) -> silent (bind m k).
Proof.
  intros Hm Hk log. unfold bind. specialize (Hm log).
  destruct (m log) as [[a|e] log1]; cbn [snd] in *; subst log1; [apply Hk | reflexivity].
Qed.

Lemma silent_try_except A (body : M A) catches handler :
  silent body -> (forall e, silent (handler e)) -> silent (try_except body catches handler).
Proof.
  intros Hb Hh log. unfold try_except. specialize (Hb log).
  destruct (body log) as [[a|e] log1]; cbn [snd] in *; subst log1; [reflexivity|].
  destruct (catches e); [apply Hh | reflexivity].
Qed.

Create HintDb silent.
#[local] Hint Resolve silent_ret silent_lift silent_bind silent_try_except : silent.

(* ================================================================= *)
(** ** Printing *)

Lemma encode_utf8_from_printable (pos : N) (text : pystr) :
  printable text = true -> encode_utf8_from pos text = Return tt.
Proof.
  revert pos. induction text as [|c s IH]; intros pos H; [reflexivity|].
  cbn [printable forallb encode_utf8_from] in *.
  apply andb_true_iff in H as [Hc Hs]. apply negb_true_iff in Hc.
  rewrite Hc. now apply IH.
Qed.

Lemma unicode_encode_error_printable (pos c run : N) :
  printable (exn_str (unicode_encode_error pos c run)) = true.
Proof.
  unfold unicode_encode_error. cbn [exn_str]. destruct (run =? 1)%N; printable_text.
Qed.

Lemma encode_utf8_from_raises (pos : N) (text : pystr) (e : exn) :
  encode_utf8_from pos text = Raise e ->
  printable text = false /\ exn_cls e = ValueError /\ printable (exn_str e) = true.
Proof.
  revert pos. induction text as [|c s IH]; intros pos; [discriminate|].
  cbn [printable forallb encode_utf8_from].
  destruct (is_surrogate c).
  - intros [= <-]. split; [reflexivity|]. split; [reflexivity|].
    apply unicode_encode_error_printable.
  - intros H. now apply IH in H.
Qed.

(** [print] writes a text without surrogates, and raises a [ValueError]
    with a message of its own on any other. *)
Lemma py_print_printable (text : pystr) :
  printable text = true -> py_print text = Return tt.
Proof. apply encode_utf8_from_printable. Qed.

Lemma py_print_raises (text : pystr) (e : exn) :
  py_print text = Raise e ->
  printable text = false /\ exn_cls e = ValueError /\ printable (exn_str e) = true.
Proof. apply encode_utf8_from_raises. Qed.

Lemma py_print_returns (text : pystr) :
  py_print text = Return tt -> printable text = true.
Proof.
  unfold py_print. generalize 0%N.
  induction text as [|c s IH]; intros pos; [reflexivity|].
  cbn [printable forallb encode_utf8_from].
  destruct (is_surrogate c); [discriminate|]. apply IH.
Qed.

Lemma py_print_cases (text : pystr) :
  (printable text = true /\ py_print text = Return tt)
  \/ (printable text = false
      /\ exists e, py_print text = Raise e
                   /\ exn_cls e = ValueError /\ printable (exn_str e) = true).
Proof.
  destruct (py_print text) as [[]|e] eqn:H.
  - left. split; [now apply py_print_returns | reflexivity].
  - right. apply py_print_raises in H as (Hp & Hc & Hm). eauto.
Qed.

Lemma printable_firstn (n : nat) (s : pystr) :
  printable s = true -> printable (firstn n s) = true.
Proof.
  revert n. induction s as [|c s IH]; intros [|n] H; try reflexivity.
  cbn [printable forallb firstn] in *.
  apply andb_true_iff in H as [-> Hs]. now apply IH.
Qed.

Lemma printable_skipn (n : nat) (s : pystr) :
  printable s = true -> printable (skipn n s) = true.
Proof.
  revert n. induction s as [|c s IH]; intros [|n] H; try reflexivity; [exact H|].
  cbn [printable forallb skipn] in *.
  apply andb_true_iff in H as [_ Hs]. now apply IH.
Qed.

Lemma printable_py_slice (s : pystr) (lo hi : Z) :
  printable s = true -> printable (py_slice s lo hi) = true.
Proof. intros H. unfold py_slice. now apply printable_firstn, printable_skipn. Qed.

(** Logging a text that quotes printable parts. *)
Ltac printable_parts :=
  rewrite ?printable_app;
  repeat match goal with
         | H : printable ?x = true |- context [printable ?x] => rewrite H
         end;
  rewrite ?str_of_N_printable;
  reflexivity.

Ltac print_ok := rewrite py_print_printable by printable_parts.

(* ================================================================= *)
(** ** Slices and searches *)

Lemma py_slice_prefix A (s : list A) (n : Z) :
  (0 <= n)%Z -> py_slice s 0 n = firstn (Z.to_nat n) s.
Proof.
  intros Hn. unfold py_slice, clamp_index.
  change (0 <? 0)%Z with false.
  destruct (Z.ltb_spec n 0); [lia|].
  rewrite (Z.min_l 0) by lia. cbn [Z.to_nat skipn]. rewrite Z.sub_0_r.
  destruct (Z.min_spec n (Z.of_nat (length s))) as [[Hlt ->]|[Hge ->]].
  - reflexivity.
  - rewrite Nat2Z.id. rewrite !firstn_all2; [reflexivity| lia | lia].
Qed.

Lemma str_eqb_eq (a b : pystr) : str_eqb a b = true <-> a = b.
Proof.
  revert b. induction a as [|x a IH]; intros [|y b]; cbn; try easy.
  rewrite andb_true_iff, N.eqb_eq, IH. split.
  - now intros [-> ->].
  - now intros [= -> ->].
Qed.

Lemma startswith_bytes_app (s p : bytes) :
  startswith Byte.eqb s p = true <-> exists rest, s = p ++ rest.
Proof.
  revert s. induction p as [|b p IH]; intros s; cbn.
  - split; [intros _; now exists s | reflexivity].
  - destruct s as [|c s].
    + split; [discriminate | intros [rest [=]]].
    + rewrite andb_true_iff, IH. split.
      * intros [Hb [rest ->]]. apply byte_dec_bl in Hb. subst. now exists rest.
      * intros [rest [= -> ->]]. split; [apply byte_dec_lb; reflexivity | now exists rest].
Qed.

(** Where [find] reports a character, the character is there. *)
Lemma find_from_char (s : pystr) (c : N) (i : Z) :
  find_from s [c] i <> (-1)%Z -> (0 <= i)%Z ->
  exists before after,
    s = before ++ c :: after /\ find_from s [c] i = (i + Z.of_nat (length before))%Z.
Proof.
  revert i. induction s as [|x s IH]; intros i Hfound Hi.
  - cbn in Hfound. congruence.
  - cbn in *. destruct (N.eqb_spec c x) as [->|Hne]; cbn in *.
    + exists [], s. split; [reflexivity | cbn; lia].
    + destruct (IH (i + 1)%Z Hfound ltac:(lia)) as (before & after & -> & Hidx).
      exists (x :: before), after. split; [reflexivity|].
      rewrite Hidx. cbn [length]. lia.
Qed.

(* ================================================================= *)
(** ** The Extractor, path by path *)

Lemma appends_print text : appends (print text).
Proof. apply appends_lift. Qed.

Lemma silent_print text : silent (print text).
Proof. apply silent_lift. Qed.

#[local] Hint Resolve appends_print : appends.
#[local] Hint Resolve silent_print : silent.

Section ExtractorPaths.

Context {R : PyRuntime}.
Variable bedrock : Bedrock.

Local Abbreviation value := (pyval pyfloat).
Local Abbreviation extract := (extract_patient_data_with_claude_pdf_support bedrock).

(** The outer [except] clause: it returns its record when the message can be
    logged, and raises otherwise. *)
Lemma report_error_printable (e : exn) (log : list Request) :
  printable (exn_str e) = true ->
  report_error e log = (Return (bedrock_error_record e), log).
Proof.
  intros H. unfold report_error, bind, print, lift. print_ok. reflexivity.
Qed.

Lemma report_error_unprintable (e : exn) (log : list Request) :
  printable (exn_str e) = false ->
  exists e',
    py_print ("Error calling Bedrock with Claude PDF support: " ++ exn_str e) = Raise e'
    /\ printable (exn_str e') = true
    /\ report_error e log = (Raise e', log).
Proof.
  intros H. unfold report_error, bind, print, lift.
  destruct (py_print_cases ("Error calling Bedrock with Claude PDF support: " ++ exn_str e))
    as [[Hp _]|[_ (e' & Hr & _ & Hm)]].
  - rewrite printable_app, H in Hp. discriminate.
  - exists e'. now rewrite Hr.
Qed.

Lemma report_error_log (e : exn) (log : list Request) : snd (report_error e log) = log.
Proof.
  unfold report_error, bind, print, lift. now destruct (py_print _).
Qed.

Lemma extract_decode_error pdf_content e log :
  b64decode (PStr pdf_content) = Raise e ->
  extract pdf_content log = (Return (bedrock_error_record e), log).
Proof.
  intros H. unfold extract_patient_data_with_claude_pdf_support.
  erewrite try_except_caught;
    [exact (report_error_printable e log (b64decode_error_printable _ H)) | | reflexivity].
  apply bind_Raise. unfold lift. now rewrite H.
Qed.

Lemma extract_bad_header pdf_content pdf_bytes log :
  b64decode (PStr pdf_content) = Return pdf_bytes ->
  startswith Byte.eqb pdf_bytes (blit "%PDF-") = false ->
  extract pdf_content log =
    (Return (patient_record "Invalid PDF file - missing PDF header"), log).
Proof.
  intros Hd Hh. unfold extract_patient_data_with_claude_pdf_support.
  erewrite try_except_bind by (unfold lift; now rewrite Hd).
  rewrite Hh. reflexivity.
Qed.

(** When the first call raises, the outer clause gets its exception. *)
Lemma extract_primary_raises pdf_content pdf_bytes e log :
  b64decode (PStr pdf_content) = Return pdf_bytes ->
  startswith Byte.eqb pdf_bytes (blit "%PDF-") = true ->
  bedrock log (primary_request pdf_bytes) = Raise e ->
  extract pdf_content log = report_error e (log ++ [primary_request pdf_bytes]).
Proof.
  intros Hd Hh Hc. unfold extract_patient_data_with_claude_pdf_support.
  erewrite try_except_bind by (unfold lift; now rewrite Hd).
  rewrite Hh.
  erewrite try_except_caught; [reflexivity | | reflexivity].
  apply bind_Raise. unfold converse. fold (primary_request pdf_bytes). now rewrite Hc.
Qed.

(** When the preview of the first response cannot be logged, the outer
    clause gets the exception of the [print]: no retry, no parsing. *)
Lemma extract_preview_raises pdf_content pdf_bytes r1 log :
  b64decode (PStr pdf_content) = Return pdf_bytes ->
  startswith Byte.eqb pdf_bytes (blit "%PDF-") = true ->
  bedrock log (primary_request pdf_bytes) = Return r1 ->
  printable (py_slice r1 0 200) = false ->
  exists e',
    py_print ([0x1F4C4%N] ++ " Claude response preview: " ++ py_slice r1 0 200 ++ "...")
      = Raise e'
    /\ extract pdf_content log
       = (Return (bedrock_error_record e'), log ++ [primary_request pdf_bytes]).
Proof.
  intros Hd Hh Hc Hp.
  destruct (py_print_cases ([0x1F4C4%N] ++ " Claude response preview: "
                            ++ py_slice r1 0 200 ++ "..."))
    as [[Hp' _]|[_ (e' & Hr & _ & Hm)]].
  - rewrite !printable_app, Hp in Hp'. discriminate.
  - exists e'. split; [exact Hr|].
    unfold extract_patient_data_with_claude_pdf_support.
    erewrite try_except_bind by (unfold lift; now rewrite Hd).
    rewrite Hh.
    erewrite try_except_bind
      by (unfold converse; fold (primary_request pdf_bytes); now rewrite Hc).
    erewrite try_except_caught;
      [exact (report_error_printable e' _ Hm) | | reflexivity].
    apply bind_Raise. unfold print, lift. now rewrite Hr.
Qed.

Lemma extract_primary_returns pdf_content pdf_bytes r1 log :
  b64decode (PStr pdf_content) = Return pdf_bytes ->
  startswith Byte.eqb pdf_bytes (blit "%PDF-") = true ->
  bedrock log (primary_request pdf_bytes) = Return r1 ->
  printable (py_slice r1 0 200) = true ->
  extract pdf_content log =
    try_except (claude_response <- choose_response bedrock pdf_bytes r1 ;;
                parse_claude_response claude_response)
               is_Exception report_error
               (log ++ [primary_request pdf_bytes]).
Proof.
  intros Hd Hh Hc Hp. unfold extract_patient_data_with_claude_pdf_support.
  erewrite try_except_bind by (unfold lift; now rewrite Hd).
  rewrite Hh.
  erewrite try_except_bind
    by (unfold converse; fold (primary_request pdf_bytes); now rewrite Hc).
  erewrite try_except_bind with (a := tt); [reflexivity|].
  unfold print, lift. now print_ok.
Qed.

Lemma extract_chosen pdf_content pdf_bytes r1 log chosen log' :
  b64decode (PStr pdf_content) = Return pdf_bytes ->
  startswith Byte.eqb pdf_bytes (blit "%PDF-") = true ->
  bedrock log (primary_request pdf_bytes) = Return r1 ->
  printable (py_slice r1 0 200) = true ->
  choose_response bedrock pdf_bytes r1 (log ++ [primary_request pdf_bytes])
    = (Return chosen, log') ->
  extract pdf_content log = parse_guarded chosen log'.
Proof.
  intros Hd Hh Hc Hp Hch.
  rewrite extract_primary_returns with (1 := Hd) (2 := Hh) (3 := Hc) (4 := Hp).
  now erewrite try_except_bind by exact Hch.
Qed.

(** When the retry loop is left by an exception, the outer clause gets it. *)
Lemma extract_retries_raise pdf_content pdf_bytes r1 log e log' :
  b64decode (PStr pdf_content) = Return pdf_bytes ->
  startswith Byte.eqb pdf_bytes (blit "%PDF-") = true ->
  bedrock log (primary_request pdf_bytes) = Return r1 ->
  printable (py_slice r1 0 200) = true ->
  choose_response bedrock pdf_bytes r1 (log ++ [primary_request pdf_bytes])
    = (Raise e, log') ->
  extract pdf_content log = report_error e log'.
Proof.
  intros Hd Hh Hc Hp Hch.
  rewrite extract_primary_returns with (1 := Hd) (2 := Hh) (3 := Hc) (4 := Hp).
  erewrite try_except_caught; [reflexivity | | reflexivity].
  now apply bind_Raise.
Qed.

(** One turn of the retry loop, by the outcome of its call and of the
    [print] that follows. *)
Lemma try_alternatives_cons i name req rest claude_response log :
  try_alternatives bedrock i ((name, req) :: rest) claude_response log =
    let next := try_alternatives bedrock (i + 1) rest claude_response (log ++ [req]) in
    let failed (alt_e : exn) :=
      match py_print ([0x26A0%N; 0xFE0F%N] ++ " Alternative approach "
                      ++ str_of_N (i + 1) ++ " failed: " ++ exn_str alt_e) with
      | Return _ => next
      | Raise e' => (Raise e', log ++ [req])
      end in
    match bedrock log req with
    | Return alt =>
        match py_print ([0x1F504%N] ++ " Alternative " ++ str_of_N (i + 1)
                        ++ " response: " ++ py_slice alt 0 200 ++ "...") with
        | Return _ => if reports_empty alt then next else (Return alt, log ++ [req])
        | Raise e => failed e
        end
    | Raise e => failed e
    end.
Proof.
  cbn [try_alternatives snd].
  unfold bind at 1, try_except, bind, converse, print, lift, reports_empty.
  destruct (bedrock log req) as [alt|e].
  - destruct (py_print ([0x1F504%N] ++ _)) as [[]|e].
    + destruct (str_in "empty" (str_lower alt)), (str_in "blank" (str_lower alt));
        reflexivity.
    + cbn [is_Exception]. now destruct (py_print _).
  - cbn [is_Exception]. now destruct (py_print _).
Qed.

Lemma try_alternatives_adopt i name req rest claude_response log alt :
  retry_outcome (bedrock log req) = Adopt alt ->
  try_alternatives bedrock i ((name, req) :: rest) claude_response log
  = (Return alt, log ++ [req]).
Proof.
  rewrite try_alternatives_cons. unfold retry_outcome.
  destruct (bedrock log req) as [a|e]; [|destruct (printable _); discriminate].
  destruct (printable (py_slice a 0 200)) eqn:Hp; [|discriminate].
  destruct (reports_empty a); [discriminate|].
  intros [= <-]. cbv zeta. now print_ok.
Qed.

Lemma try_alternatives_skip i name req rest claude_response log :
  retry_outcome (bedrock log req) = Skip ->
  try_alternatives bedrock i ((name, req) :: rest) claude_response log
  = try_alternatives bedrock (i + 1) rest claude_response (log ++ [req]).
Proof.
  rewrite try_alternatives_cons. unfold retry_outcome. cbv zeta.
  destruct (bedrock log req) as [a|e].
  - destruct (py_print_cases ([0x1F504%N] ++ " Alternative " ++ str_of_N (i + 1)
                              ++ " response: " ++ py_slice a 0 200 ++ "..."))
      as [[Hp ->]|[Hp (e' & -> & _ & Hm)]].
    + rewrite !printable_app, str_of_N_printable in Hp.
      destruct (printable (py_slice a 0 200)); [|discriminate].
      now destruct (reports_empty a).
    + intros _. now print_ok.
  - destruct (printable (exn_str e)) eqn:Hp; [|discriminate].
    intros _. now print_ok.
Qed.

Lemma try_alternatives_abort i name req rest claude_response log :
  retry_outcome (bedrock log req) = Abort ->
  exists e',
    printable (exn_str e') = true
    /\ try_alternatives bedrock i ((name, req) :: rest) claude_response log
       = (Raise e', log ++ [req]).
Proof.
  rewrite try_alternatives_cons. unfold retry_outcome. cbv zeta.
  destruct (bedrock log req) as [a|e]; [destruct (_ && _); discriminate|].
  destruct (printable (exn_str e)) eqn:Hp; [discriminate|]. intros _.
  destruct (py_print_cases ([0x26A0%N; 0xFE0F%N] ++ " Alternative approach "
                            ++ str_of_N (i + 1) ++ " failed: " ++ exn_str e))
    as [[Hp' _]|[_ (e' & -> & _ & Hm)]].
  - rewrite !printable_app, Hp, str_of_N_printable in Hp'. discriminate.
  - now exists e'.
Qed.

(** The retry loop ends on a text, or is left with the exception of a
    [print], whose message can be logged. *)
Lemma try_alternatives_outcome i approaches claude_response log :
  (exists chosen log',
     try_alternatives bedrock i approaches claude_response log = (Return chosen, log'))
  \/ (exists e log',
        try_alternatives bedrock i approaches claude_response log = (Raise e, log')
        /\ printable (exn_str e) = true).
Proof.
  revert i log. induction approaches as [|[name req] rest IH]; intros i log.
  - left. now exists claude_response, log.
  - destruct (retry_outcome (bedrock log req)) as [alt| |] eqn:Ho.
    + left. rewrite try_alternatives_adopt with (1 := Ho). eauto.
    + rewrite try_alternatives_skip with (1 := Ho). apply IH.
    + right. destruct (@try_alternatives_abort i name req rest claude_response log Ho)
        as (e' & Hm & ->). eauto.
Qed.

Lemma choose_response_outcome pdf_bytes claude_response log :
  (exists chosen log',
     choose_response bedrock pdf_bytes claude_response log = (Return chosen, log'))
  \/ (exists e log',
        choose_response bedrock pdf_bytes claude_response log = (Raise e, log')
        /\ printable (exn_str e) = true).
Proof.
  unfold choose_response. destruct (reports_empty claude_response).
  - apply try_alternatives_outcome.
  - left. now exists claude_response, log.
Qed.

Lemma appends_try_alternatives i approaches claude_response :
  appends (try_alternatives bedrock i approaches claude_response).
Proof.
  revert i. induction approaches as [|[name req] rest IH]; intros i;
    cbn [try_alternatives].
  - auto with appends.
  - apply appends_bind.
    + apply appends_try_except; [|auto with appends].
      apply appends_bind; [auto with appends|].
      intros a. apply appends_bind; [auto with appends|].
      intros _. destruct (_ && _); auto with appends.
    + intros [alt|]; auto with appends.
Qed.

Lemma appends_choose_response pdf_bytes claude_response :
  appends (choose_response bedrock pdf_bytes claude_response).
Proof.
  unfold choose_response. destruct (reports_empty _);
    [apply appends_try_alternatives | auto with appends].
Qed.

(** Parsing talks to nobody: the log stays as it is. *)
Lemma silent_print_debug_info (patient_data : value) :
  silent (print_debug_info patient_data).
Proof.
  unfold print_debug_info.
  destruct patient_data as [| | | | | |d]; auto with silent.
  destruct (dict_lookup d "debugInfo") as [[| | | |s| |]|]; auto with silent.
Qed.

Lemma silent_parse_guarded claude_response : silent (parse_guarded claude_response).
Proof.
  pose proof silent_print_debug_info.
  unfold parse_guarded, parse_claude_response, report_error.
  apply silent_try_except; [|auto with silent].
  apply silent_try_except; [|auto 6 with silent].
  destruct (_ || _); auto 8 with silent.
Qed.

Lemma parse_guarded_log claude_response log :
  snd (parse_guarded claude_response log) = log.
Proof. apply silent_parse_guarded. Qed.

(** The parsing block, outcome by outcome. *)
Lemma print_debug_info_printable (patient_data : value) (log : list Request) :
  debug_info_printable patient_data = true ->
  print_debug_info patient_data log = (Return tt, log).
Proof.
  unfold debug_info_printable, print_debug_info.
  destruct patient_data as [| | | | | |d]; try reflexivity.
  destruct (dict_lookup d "debugInfo") as [[| | | |s| |]|]; try reflexivity.
  intros H. unfold print, lift. now print_ok.
Qed.

Lemma json_found claude_response :
  str_find claude_response "{" <> (-1)%Z ->
  str_rfind claude_response "}" <> (-1)%Z ->
  (str_find claude_response "{" =? -1)%Z || (str_rfind claude_response "}" + 1 =? 0)%Z
  = false.
Proof. intros H1 H2. apply orb_false_iff. split; lia. Qed.

Lemma json_not_found claude_response :
  (str_find claude_response "{" = -1 \/ str_rfind claude_response "}" = -1)%Z ->
  (str_find claude_response "{" =? -1)%Z || (str_rfind claude_response "}" + 1 =? 0)%Z
  = true.
Proof. intros H. apply orb_true_iff. destruct H as [H|H]; [left | right]; lia. Qed.

Lemma parse_guarded_no_json claude_response log :
  (str_find claude_response "{" = -1 \/ str_rfind claude_response "}" = -1)%Z ->
  printable claude_response = true ->
  parse_guarded claude_response log =
    (Return (patient_record ("No JSON response from Claude. Response: "
                             ++ firstn 200 claude_response)), log).
Proof.
  intros H Hp. unfold parse_guarded, parse_claude_response, try_except.
  rewrite py_slice_prefix by lia. rewrite json_not_found by exact H.
  unfold bind, print, lift. now print_ok.
Qed.

Lemma parse_guarded_parsed claude_response log patient_data :
  str_find claude_response "{" <> (-1)%Z ->
  str_rfind claude_response "}" <> (-1)%Z ->
  printable (py_slice claude_response (str_find claude_response "{")
                                      (str_rfind claude_response "}" + 1)) = true ->
  json_loads (PStr (py_slice claude_response (str_find claude_response "{")
                                             (str_rfind claude_response "}" + 1)))
    = Return patient_data ->
  debug_info_printable patient_data = true ->
  parse_guarded claude_response log = (Return patient_data, log).
Proof.
  intros H1 H2 Hp Hj Hd. unfold parse_guarded, parse_claude_response, try_except.
  rewrite json_found by assumption.
  unfold bind, print, lift. print_ok. rewrite Hj.
  now rewrite print_debug_info_printable by exact Hd.
Qed.

(** The inner [except] clause, and the outer one behind it. *)
Lemma parse_error_reported (body : M value) claude_response e log log1 :
  body log = (Raise e, log1) ->
  is_ValueError e = true ->
  printable (exn_str e) = true ->
  printable claude_response = true ->
  try_except (try_except body is_ValueError (report_parse_error claude_response))
             is_Exception report_error log
  = (Return (parse_error_record e claude_response), log1).
Proof.
  intros Hb Hv Hm Hp. unfold try_except, report_parse_error, bind, print, lift.
  rewrite Hb, Hv. now do 2 print_ok.
Qed.

Lemma parse_error_unreported (body : M value) claude_response e log log1 :
  body log = (Raise e, log1) ->
  is_ValueError e = true ->
  printable (exn_str e) = true ->
  printable claude_response = false ->
  exists e',
    py_print ([0x1F4C4%N] ++ " Full Claude response: " ++ claude_response) = Raise e'
    /\ printable (exn_str e') = true
    /\ try_except (try_except body is_ValueError (report_parse_error claude_response))
                  is_Exception report_error log
       = (Return (bedrock_error_record e'), log1).
Proof.
  intros Hb Hv Hm Hp.
  destruct (py_print_cases ([0x1F4C4%N] ++ " Full Claude response: " ++ claude_response))
    as [[Hp' _]|[_ (e' & Hr & _ & Hm')]].
  - rewrite !printable_app, Hp in Hp'. discriminate.
  - exists e'. split; [exact Hr|]. split; [exact Hm'|].
    unfold try_except, report_parse_error, bind, print, lift.
    rewrite Hb, Hv. print_ok. rewrite Hr. cbn [is_Exception].
    apply report_error_printable, Hm'.
Qed.

Lemma parse_error_passed_on (body : M value) claude_response e log log1 :
  body log = (Raise e, log1) ->
  is_ValueError e = false ->
  printable (exn_str e) = true ->
  try_except (try_except body is_ValueError (report_parse_error claude_response))
             is_Exception report_error log
  = (Return (bedrock_error_record e), log1).
Proof.
  intros Hb Hv Hm. unfold try_except. rewrite Hb, Hv. cbn [is_Exception].
  apply report_error_printable, Hm.
Qed.

Lemma parse_guarded_json_error claude_response log e :
  str_find claude_response "{" <> (-1)%Z ->
  str_rfind claude_response "}" <> (-1)%Z ->
  printable claude_response = true ->
  json_loads (PStr (py_slice claude_response (str_find claude_response "{")
                                             (str_rfind claude_response "}" + 1)))
    = Raise e ->
  parse_guarded claude_response log =
    (Return (if is_ValueError e
             then patient_record ("JSON parsing error: " ++ exn_str e ++ ". Response: "
                                  ++ firstn 200 claude_response)
             else bedrock_error_record e), log).
Proof.
  intros H1 H2 Hp Hj.
  pose proof (json_loads_error_printable _ Hj) as Hm.
  pose proof (printable_py_slice claude_response (str_find claude_response "{")
                (str_rfind claude_response "}" + 1) Hp) as Hs.
  unfold parse_guarded, parse_claude_response.
  rewrite json_found by assumption.
  replace (firstn 200 claude_response) with (py_slice claude_response 0 200)
    by now rewrite py_slice_prefix by lia.
  destruct (is_ValueError e) eqn:Hv.
  - apply parse_error_reported; try assumption.
    unfold bind, print, lift. print_ok. now rewrite Hj.
  - apply parse_error_passed_on; try assumption.
    unfold bind, print, lift. print_ok. now rewrite Hj.
Qed.


End ExtractorPaths.
(* ================================================================= *)
(** ** The version test on the PDF header *)

Lemma run_chars_position skip p q s :
  run_chars (utf8_items skip p s) = run_chars (utf8_items skip q s).
Proof.
  revert skip p q. induction s as [|b rest IH]; intros skip p q; [reflexivity|].
  destruct skip as [|k]; cbn [utf8_items].
  - unfold run_chars in *. cbn [flat_map snd]. f_equal. apply IH.
  - apply IH.
Qed.

(** A character of width one is an ASCII byte; a wider one has its
    continuation bytes in the input. *)
Lemma utf8_step_Decoded b rest c w :
  utf8_step b rest = Decoded c w ->
  (w = 1%nat /\ c = b) \/ (2 <= w <= 1 + length rest)%nat.
Proof.
  unfold utf8_step.
  repeat match goal with
         | |- context [if ?x then _ else _] => destruct x
         | |- context [match ?l with [] => _ | _ :: _ => _ end] => destruct l
         end;
    intros [= <- <-]; cbn [length]; first [left; split; reflexivity | right; lia].
Qed.

(** A run yields at most one character per byte... *)
Lemma run_chars_length skip p s :
  (length (run_chars (utf8_items skip p s)) <= length s - skip)%nat.
Proof.
  revert skip p. induction s as [|b rest IH]; intros skip p; [cbn; lia|].
  destruct skip as [|k]; cbn [utf8_items].
  - unfold run_chars in *. cbn [flat_map snd length]. rewrite length_app.
    specialize (IH (pred (item_width (utf8_step b rest))) (p + 1)%N).
    destruct (utf8_step b rest); cbn [length]; lia.
  - specialize (IH k (p + 1)%N). cbn [length]. lia.
Qed.

(** ... and one per byte only on ASCII input, which it copies. *)
Lemma run_chars_full skip p s :
  length (run_chars (utf8_items skip p s)) = length s ->
  run_chars (utf8_items skip p s) = s.
Proof.
  revert skip p. induction s as [|b rest IH]; intros skip p; [reflexivity|].
  destruct skip as [|k]; cbn [utf8_items].
  - unfold run_chars in *. cbn [flat_map snd]. rewrite length_app.
    pose proof (run_chars_length (pred (item_width (utf8_step b rest))) (p + 1) rest) as Hle.
    unfold run_chars in Hle.
    destruct (utf8_step b rest) as [c w|why w] eqn:Hstep; cbn [length item_width] in *.
    + intros Hlen.
      destruct (utf8_step_Decoded _ _ Hstep) as [[-> ->]|Hw]; [|exfalso; lia].
      cbn [app]. f_equal. apply IH. cbn [length Nat.pred] in *. lia.
    + intros Hlen. cbn in Hlen. exfalso. lia.
  - pose proof (run_chars_length k (p + 1) rest). cbn [length]. intros. exfalso. lia.
Qed.

Lemma decode_utf8_ignore_run bs :
  decode_utf8_ignore bs = run_chars (utf8_items 0 0 (map Byte.to_N bs)).
Proof. reflexivity. Qed.

Lemma map_to_N_inj (a b : bytes) : map Byte.to_N a = map Byte.to_N b -> a = b.
Proof.
  revert b. induction a as [|x a IH]; intros [|y b]; cbn; try discriminate; [reflexivity|].
  intros [= Hxy Hab]. f_equal; [|now apply IH].
  pose proof (Byte.of_to_N x) as Hx. rewrite Hxy, Byte.of_to_N in Hx. congruence.
Qed.

(** In a text of at most eight characters that starts with ["%PDF-"],
    ["1.3"] can only be the three characters that follow. *)
Lemma version_in_header (d : pystr) :
  (length d <= 3)%nat ->
  str_in "1.3" ("%PDF-" ++ d) = true -> d = "1.3".
Proof.
  intros Hlen. unfold str_in, str_find.
  destruct d as [|a [|b [|c [|x d]]]]; cbn [length] in Hlen; try lia;
    cbn [app find_from startswith];
    repeat match goal with
           | |- context [N.eqb ?x ?y] =>
               let E := fresh "E" in
               destruct (N.eqb_spec x y) as [E|E];
               [try discriminate E; try subst | try congruence];
               cbn [andb app find_from startswith]
           end;
    cbn; intros H; first [discriminate H | reflexivity].
Qed.

(** ["1.3" in pdf_version] holds exactly for the documents that start with
    [%PDF-1.3]. *)
Lemma version_test (pdf_bytes : bytes) :
  startswith Byte.eqb pdf_bytes (blit "%PDF-") = true ->
  str_in "1.3" (decode_utf8_ignore (py_slice pdf_bytes 0 8))
  = startswith Byte.eqb pdf_bytes (blit "%PDF-1.3").
Proof.
  intros Hh. apply startswith_bytes_app in Hh. destruct Hh as [rest ->].
  rewrite py_slice_prefix by lia.
  change (Z.to_nat 8) with 8%nat.
  change (blit "%PDF-") with [x25; x50; x44; x46; x2d].
  change (blit "%PDF-1.3") with ([x25; x50; x44; x46; x2d] ++ [x31; x2e; x33]).
  cbn [app].
  change (firstn 8 (x25 :: x50 :: x44 :: x46 :: x2d :: rest))
    with (x25 :: x50 :: x44 :: x46 :: x2d :: firstn 3 rest).
  rewrite decode_utf8_ignore_run.
  set (t := firstn 3 rest).
  assert (Ht : (length t <= 3)%nat) by (subst t; rewrite length_firstn; lia).
  assert (Hrun : run_chars (utf8_items 0 0 (map Byte.to_N (x25 :: x50 :: x44 :: x46 :: x2d :: t)))
                 = "%PDF-" ++ run_chars (utf8_items 0 5 (map Byte.to_N t))) by reflexivity.
  rewrite Hrun. clear Hrun.
  rewrite (run_chars_position 0 5 0).
  assert (Hrhs : startswith Byte.eqb (x25 :: x50 :: x44 :: x46 :: x2d :: rest)
                                      [x25; x50; x44; x46; x2d; x31; x2e; x33]
                 = startswith Byte.eqb rest [x31; x2e; x33]) by reflexivity.
  rewrite Hrhs. clear Hrhs.
  apply Bool.eq_iff_eq_true. split.
  - intros Hin.
    pose proof (run_chars_length 0 0 (map Byte.to_N t)) as Hle. rewrite length_map in Hle.
    apply version_in_header in Hin; [|lia].
    assert (Hfull : run_chars (utf8_items 0 0 (map Byte.to_N t)) = map Byte.to_N t).
    { apply run_chars_full. rewrite Hin in Hle |- *. rewrite length_map.
      cbn [length] in *. lia. }
    rewrite Hfull in Hin.
    apply (map_to_N_inj t [x31; x2e; x33]) in Hin.
    apply startswith_bytes_app. exists (skipn 3 rest).
    rewrite <- Hin. subst t. symmetry. apply firstn_skipn.
  - intros Hv. apply startswith_bytes_app in Hv. destruct Hv as [rest' ->].
    subst t. reflexivity.
Qed.

Ltac arith_facts :=
  repeat match goal with
         | H : (_ <? _)%N = true |- _ => apply N.ltb_lt in H
         | H : (_ <? _)%N = false |- _ => apply N.ltb_ge in H
         | H : (_ <=? _)%N = true |- _ => apply N.leb_le in H
         | H : (_ <=? _)%N = false |- _ => apply N.leb_gt in H
         | H : (_ =? _)%N = true |- _ => apply N.eqb_eq in H
         | H : (_ =? _)%N = false |- _ => apply N.eqb_neq in H
         | H : _ && _ = true |- _ => apply andb_true_iff in H; destruct H
         | H : _ || _ = false |- _ => apply orb_false_iff in H; destruct H
         | H : negb _ = false |- _ => apply negb_false_iff in H
         | H : (if ?x then _ else _) = false |- _ => destruct x eqn:?
         end.

(** The decoder yields no surrogate: it rejects the three-byte sequences
    that would encode one. *)
Lemma utf8_step_not_surrogate (b : N) (rest : list N) (c : N) (w : nat) :
  utf8_step b rest = Decoded c w -> is_surrogate c = false.
Proof.
  unfold utf8_step, is_continuation.
  repeat match goal with
         | |- context [if ?x then _ else _] => destruct x eqn:?
         | |- context [match ?l with [] => _ | _ :: _ => _ end] => destruct l
         end;
    intros [= <- _]; arith_facts; unfold is_surrogate;
    apply andb_false_iff;
    match goal with
    | |- (_ <=? ?c)%N = false \/ _ =>
        destruct (N.lt_ge_cases c 0xD800); [left | right]; apply N.leb_gt; lia
    end.
Qed.

Lemma run_chars_printable (skip : nat) (pos : N) (s : list N) :
  printable (run_chars (utf8_items skip pos s)) = true.
Proof.
  revert skip pos. induction s as [|b rest IH]; intros skip pos; [reflexivity|].
  destruct skip as [|k]; cbn [utf8_items]; [|apply IH].
  unfold run_chars in *. cbn [flat_map snd]. rewrite printable_app, IH, andb_true_r.
  destruct (utf8_step b rest) as [c w|why w] eqn:Hstep; [|reflexivity].
  cbn [printable forallb]. now rewrite (utf8_step_not_surrogate _ _ Hstep).
Qed.

Lemma decode_utf8_ignore_printable (bs : bytes) :
  printable (decode_utf8_ignore bs) = true.
Proof. rewrite decode_utf8_ignore_run. apply run_chars_printable. Qed.

(** The text handed to [json.loads] is empty or starts with the brace that
    [find] located. *)
Lemma slice_from_brace (r : pystr) (hi : Z) :
  str_find r "{" <> (-1)%Z ->
  py_slice r (str_find r "{") hi = [] \/
  exists rest, py_slice r (str_find r "{") hi = 123%N :: rest.
Proof.
  intros Hfound. unfold str_find in *.
  destruct (@find_from_char r 123%N 0%Z Hfound ltac:(lia)) as (before & after & Hr & Hidx).
  change ("{") with [123%N] in *. rewrite Hidx. subst r.
  unfold py_slice. set (len := Z.of_nat (length (before ++ 123%N :: after))).
  assert (Hlen : len = (Z.of_nat (length before) + 1 + Z.of_nat (length after))%Z).
  { subst len. rewrite length_app. cbn [length]. lia. }
  assert (Hlo : clamp_index len (0 + Z.of_nat (length before)) = Z.of_nat (length before)).
  { unfold clamp_index. destruct (Z.ltb_spec (0 + Z.of_nat (length before)) 0); lia. }
  rewrite Hlo, Nat2Z.id.
  rewrite skipn_app, Nat.sub_diag, skipn_all. cbn [app skipn].
  destruct (Z.to_nat _) as [|n]; cbn [firstn]; [now left | right; eauto].
Qed.

(* ================================================================= *)
(** ** Properties of the Extractor *)

Section ExtractorProperties.

Context {R : PyRuntime}.
Variable bedrock : Bedrock.

Local Abbreviation value := (pyval pyfloat).
Local Abbreviation extract := (extract_patient_data_with_claude_pdf_support bedrock).

Lemma alternative_requests pdf_bytes :
  map snd (alternative_approaches pdf_bytes) = [first_retry pdf_bytes; second_retry pdf_bytes].
Proof. reflexivity. Qed.


(** An error-annotated record whose debugInfo can be logged. *)
Lemma record_result (debugInfo : pystr) :
  printable debugInfo = true -> extractor_result (patient_record debugInfo).
Proof.
  intros H. split; [reflexivity|]. split; [exact H|]. left. now exists debugInfo.
Qed.

Lemma bedrock_error_result (e : exn) :
  printable (exn_str e) = true -> extractor_result (bedrock_error_record e).
Proof. intros H. apply record_result. printable_parts. Qed.

(** Whatever the inner [try] raises, the parsing block returns a record. *)
Lemma parse_error_outcome (body : M value) claude_response e log log1 :
  body log = (Raise e, log1) ->
  printable (exn_str e) = true ->
  exists v,
    try_except (try_except body is_ValueError (report_parse_error claude_response))
               is_Exception report_error log
    = (Return v, log1)
    /\ extractor_result v.
Proof.
  intros Hb Hm. destruct (is_ValueError e) eqn:Hv.
  - destruct (printable claude_response) eqn:Hp.
    + rewrite parse_error_reported with (1 := Hb) by assumption.
      eexists. split; [reflexivity|]. apply record_result.
      pose proof (@printable_py_slice claude_response 0 200 Hp). printable_parts.
    + destruct (@parse_error_unreported _ body claude_response e log log1 Hb Hv Hm Hp)
        as (e' & _ & Hm' & ->).
      eexists. split; [reflexivity|]. now apply bedrock_error_result.
  - rewrite parse_error_passed_on with (1 := Hb) by assumption.
    eexists. split; [reflexivity|]. now apply bedrock_error_result.
Qed.

(** What the parsing block returns: always a mapping, which is either an
    error-annotated record or the object [json.loads] read. *)
Lemma parse_guarded_outcome (claude_response : pystr) (log : list Request) :
  exists v : value,
    parse_guarded claude_response log = (Return v, log) /\ extractor_result v.
Proof.
  assert (Hraise : forall (text : pystr) (k : unit -> M value),
             printable text = false ->
             exists e, bind (print text) k log = (Raise e, log)
                       /\ printable (exn_str e) = true).
  { intros text k Hp.
    destruct (py_print_cases text) as [[Hp' _]|[_ (e & Hr & _ & Hm)]]; [congruence|].
    exists e. split; [|exact Hm]. unfold bind, print, lift. now rewrite Hr. }
  destruct (Z.eq_dec (str_find claude_response "{") (-1)) as [H1|H1];
    [|destruct (Z.eq_dec (str_rfind claude_response "}") (-1)) as [H2|H2]].
  1, 2: destruct (printable claude_response) eqn:Hp;
    [rewrite parse_guarded_no_json by auto;
     eexists; split; [reflexivity|]; apply record_result;
     pose proof (@printable_firstn 200 claude_response Hp); printable_parts
    |unfold parse_guarded, parse_claude_response;
     rewrite json_not_found by auto;
     destruct (Hraise ("Full response: " ++ claude_response)
                 (fun _ => ret (patient_record
                                  ("No JSON response from Claude. Response: "
                                   ++ py_slice claude_response 0 200))))
       as (e & Hb & Hm); [now rewrite printable_app, Hp|];
     exact (@parse_error_outcome _ claude_response e log log Hb Hm)].
  set (json_str := py_slice claude_response (str_find claude_response "{")
                            (str_rfind claude_response "}" + 1)).
  destruct (printable json_str) eqn:Hs.
  - destruct (json_loads (PStr json_str)) as [v|e] eqn:Hj.
    + assert (Hdict : is_dict v = true).
      { destruct (slice_from_brace claude_response (str_rfind claude_response "}" + 1) H1)
          as [Hs'|[rest Hs']]; fold json_str in Hs'; rewrite Hs' in Hj.
        - now apply json_loads_empty in Hj.
        - now apply json_loads_object in Hj. }
      destruct (debug_info_printable v) eqn:Hd.
      * rewrite parse_guarded_parsed with (patient_data := v) by assumption.
        exists v. split; [reflexivity|]. split; [exact Hdict|]. split; [exact Hd|].
        right. now exists json_str.
      * unfold parse_guarded, parse_claude_response.
        rewrite json_found by assumption. fold json_str.
        assert (Hb : exists e,
                   (_ <- print ([0x1F4CB%N] ++ " Extracted JSON string: " ++ json_str) ;;
                    patient_data <- lift (json_loads (PStr json_str)) ;;
                    _ <- print_debug_info patient_data ;;
                    ret patient_data) log = (Raise e, log)
                   /\ printable (exn_str e) = true).
        { unfold bind at 1, print at 1, lift at 1. print_ok.
          unfold bind at 1, lift at 1. rewrite Hj.
          unfold debug_info_printable in Hd. unfold print_debug_info.
          destruct v as [| | | | | |d]; try discriminate.
          destruct (dict_lookup d "debugInfo") as [[| | | |s| |]|]; try discriminate.
          apply Hraise. now rewrite !printable_app, Hd. }
        destruct Hb as (e & Hb & Hm).
        exact (@parse_error_outcome _ claude_response e log log Hb Hm).
    + unfold parse_guarded, parse_claude_response.
      rewrite json_found by assumption. fold json_str.
      refine (@parse_error_outcome _ claude_response e log log _
                (json_loads_error_printable _ Hj)).
      unfold bind, print, lift. print_ok. now rewrite Hj.
  - unfold parse_guarded, parse_claude_response.
    rewrite json_found by assumption. fold json_str.
    destruct (Hraise ([0x1F4CB%N] ++ " Extracted JSON string: " ++ json_str)
                (fun _ => patient_data <- lift (json_loads (PStr json_str)) ;;
                          _ <- print_debug_info patient_data ;;
                          ret patient_data))
      as (e & Hb & Hm); [now rewrite !printable_app, Hs|].
    exact (@parse_error_outcome _ claude_response e log log Hb Hm).
Qed.

(** One run of the Extractor: it returns a mapping, or, when the first call
    raises an exception whose message cannot be logged, raises the exception
    of the [print] in the outer [except] clause. *)
Lemma extract_outcome (pdf_content : pystr) (log : list Request) :
  (exists v log', extract pdf_content log = (Return v, log') /\ extractor_result v)
  \/ (exists pdf_bytes e e',
        b64decode (PStr pdf_content) = Return pdf_bytes
        /\ startswith Byte.eqb pdf_bytes (blit "%PDF-") = true
        /\ bedrock log (primary_request pdf_bytes) = Raise e
        /\ printable (exn_str e) = false
        /\ py_print ("Error calling Bedrock with Claude PDF support: " ++ exn_str e)
           = Raise e'
        /\ extract pdf_content log = (Raise e', log ++ [primary_request pdf_bytes])).
Proof.
  destruct (b64decode (PStr pdf_content)) as [pdf_bytes|e] eqn:Hd.
  - destruct (startswith Byte.eqb pdf_bytes (blit "%PDF-")) eqn:Hh.
    + destruct (bedrock log (primary_request pdf_bytes)) as [r1|e] eqn:Hc.
      * left. destruct (printable (py_slice r1 0 200)) eqn:Hp.
        -- destruct (choose_response_outcome bedrock pdf_bytes r1
                       (log ++ [primary_request pdf_bytes]))
             as [(chosen & log' & Hch)|(e & log' & Hch & Hm)].
           ++ rewrite extract_chosen with (1 := Hd) (2 := Hh) (3 := Hc) (4 := Hp) (5 := Hch).
              destruct (parse_guarded_outcome chosen log') as (v & -> & Hv). eauto.
           ++ rewrite extract_retries_raise
                with (1 := Hd) (2 := Hh) (3 := Hc) (4 := Hp) (5 := Hch).
              rewrite report_error_printable by exact Hm.
              eexists _, _. split; [reflexivity | now apply bedrock_error_result].
        -- destruct (@extract_preview_raises _ bedrock pdf_content pdf_bytes r1 log Hd Hh Hc Hp)
             as (e' & Hr & ->).
           eexists _, _. split; [reflexivity|].
           apply bedrock_error_result. now apply py_print_raises in Hr.
      * rewrite extract_primary_raises with (1 := Hd) (2 := Hh) (3 := Hc).
        destruct (printable (exn_str e)) eqn:Hm.
        -- left. rewrite report_error_printable by exact Hm.
           eexists _, _. split; [reflexivity | now apply bedrock_error_result].
        -- right. destruct (@report_error_unprintable _ e (log ++ [primary_request pdf_bytes]) Hm)
             as (e' & Hr & _ & ->).
           exists pdf_bytes, e, e'. auto 10.
    + left. rewrite extract_bad_header with (1 := Hd) (2 := Hh).
      eexists _, _. split; [reflexivity | now apply record_result].
  - left. rewrite extract_decode_error with (1 := Hd).
    eexists _, _. split; [reflexivity|].
    apply bedrock_error_result. exact (b64decode_error_printable _ Hd).
Qed.

(** The calls of one run are the first call and those of the retries. *)
Lemma extract_log_chosen pdf_content pdf_bytes r1 log :
  b64decode (PStr pdf_content) = Return pdf_bytes ->
  startswith Byte.eqb pdf_bytes (blit "%PDF-") = true ->
  bedrock log (primary_request pdf_bytes) = Return r1 ->
  printable (py_slice r1 0 200) = true ->
  snd (extract pdf_content log)
  = snd (choose_response bedrock pdf_bytes r1 (log ++ [primary_request pdf_bytes])).
Proof.
  intros Hd Hh Hc Hp.
  destruct (choose_response bedrock pdf_bytes r1 (log ++ [primary_request pdf_bytes]))
    as [[chosen|e] log'] eqn:Hch.
  - rewrite extract_chosen with (1 := Hd) (2 := Hh) (3 := Hc) (4 := Hp) (5 := Hch).
    apply parse_guarded_log.
  - rewrite extract_retries_raise with (1 := Hd) (2 := Hh) (3 := Hc) (4 := Hp) (5 := Hch).
    apply report_error_log.
Qed.

(** C6. Bytes that do not start with the signature [%PDF-] are rejected with
    the fixed debugInfo and empty fields, and no call to Bedrock is made: the
    log is the one the Extractor started with. *)
Theorem missing_header_rejected_without_inference
    (pdf_content : pystr) (pdf_bytes : bytes) (log : list Request) :
  b64decode (PStr pdf_content) = Return pdf_bytes ->
  startswith Byte.eqb pdf_bytes (blit "%PDF-") = false ->
  extract pdf_content log =
    (Return (PDict [("debugInfo", PStr "Invalid PDF file - missing PDF header");
                    ("firstName", PStr ""); ("lastName", PStr "");
                    ("dateOfBirth", PStr "")]),
     log).
Proof. intros Hd Hh. now rewrite extract_bad_header with (1 := Hd). Qed.

(** C8, as amended. When the response that is parsed has no opening brace or
    no closing brace, and holds no lone surrogate (its text can be logged),
    the Extractor returns the record whose debugInfo is
    "No JSON response from Claude. Response: " followed by the first 200
    characters of that response, with empty name and date fields. *)
Theorem no_json_in_response
    (pdf_content : pystr) (pdf_bytes : bytes) (log log' : list Request)
    (r1 claude_response : pystr) :
  b64decode (PStr pdf_content) = Return pdf_bytes ->
  startswith Byte.eqb pdf_bytes (blit "%PDF-") = true ->
  bedrock log (primary_request pdf_bytes) = Return r1 ->
  printable (py_slice r1 0 200) = true ->
  choose_response bedrock pdf_bytes r1 (log ++ [primary_request pdf_bytes])
    = (Return claude_response, log') ->
  (str_find claude_response "{" = -1 \/ str_rfind claude_response "}" = -1)%Z ->
  printable claude_response = true ->
  extract pdf_content log =
    (Return (PDict [("debugInfo", PStr ("No JSON response from Claude" ++ ". Response: "
                                        ++ firstn 200 claude_response));
                    ("firstName", PStr ""); ("lastName", PStr "");
                    ("dateOfBirth", PStr "")]),
     log').
Proof.
  intros Hd Hh Hc Hp Hch Hno Hr.
  rewrite extract_chosen with (1 := Hd) (2 := Hh) (3 := Hc) (4 := Hp) (5 := Hch).
  now rewrite parse_guarded_no_json.
Qed.

(** C3, as amended. When [json.loads] accepts the text between the first
    opening and the last closing brace of the response, and that text and the
    debugInfo of the parsed object hold no lone surrogate (the Extractor logs
    both), the Extractor returns the parsed object as it is: nothing is added
    for a missing key and no surplus key is removed. *)
Theorem parsed_object_returned_unchanged
    (pdf_content : pystr) (pdf_bytes : bytes) (log log' : list Request)
    (r1 claude_response : pystr) (patient_data : value) :
  b64decode (PStr pdf_content) = Return pdf_bytes ->
  startswith Byte.eqb pdf_bytes (blit "%PDF-") = true ->
  bedrock log (primary_request pdf_bytes) = Return r1 ->
  printable (py_slice r1 0 200) = true ->
  choose_response bedrock pdf_bytes r1 (log ++ [primary_request pdf_bytes])
    = (Return claude_response, log') ->
  str_find claude_response "{" <> (-1)%Z ->
  str_rfind claude_response "}" <> (-1)%Z ->
  printable (py_slice claude_response (str_find claude_response "{")
                                      (str_rfind claude_response "}" + 1)) = true ->
  json_loads (PStr (py_slice claude_response (str_find claude_response "{")
                                             (str_rfind claude_response "}" + 1)))
    = Return patient_data ->
  debug_info_printable patient_data = true ->
  extract pdf_content log = (Return patient_data, log').
Proof.
  intros Hd Hh Hc Hp Hch H1 H2 Hs Hj Hdbg.
  rewrite extract_chosen with (1 := Hd) (2 := Hh) (3 := Hc) (4 := Hp) (5 := Hch).
  now apply parse_guarded_parsed.
Qed.


(** The first call carries the SIMPLIFIED prompt exactly when the document
    starts with [%PDF-1.3]. *)
Lemma first_prompt_test (pdf_bytes : bytes) :
  startswith Byte.eqb pdf_bytes (blit "%PDF-") = true ->
  instruction (primary_request pdf_bytes)
  = if startswith Byte.eqb pdf_bytes (blit "%PDF-1.3") then SIMPLIFIED else STANDARD.
Proof.
  intros Hh. unfold primary_request, first_request. rewrite version_test by assumption.
  now destruct (startswith Byte.eqb pdf_bytes (blit "%PDF-1.3")).
Qed.

(** The first call is made as soon as the header check passes. *)
Lemma extract_first_call (pdf_content : pystr) (pdf_bytes : bytes) (log : list Request) :
  b64decode (PStr pdf_content) = Return pdf_bytes ->
  startswith Byte.eqb pdf_bytes (blit "%PDF-") = true ->
  exists later,
    snd (extract pdf_content log) = log ++ primary_request pdf_bytes :: later.
Proof.
  intros Hd Hh.
  destruct (bedrock log (primary_request pdf_bytes)) as [r1|e] eqn:Hc.
  - destruct (printable (py_slice r1 0 200)) eqn:Hp.
    + rewrite extract_log_chosen with (1 := Hd) (2 := Hh) (3 := Hc) (4 := Hp).
      destruct (appends_choose_response bedrock pdf_bytes r1
                  (log ++ [primary_request pdf_bytes])) as [calls ->].
      exists calls. now rewrite <- app_assoc.
    + destruct (@extract_preview_raises _ bedrock pdf_content pdf_bytes r1 log Hd Hh Hc Hp)
        as (e' & _ & ->).
      now exists [].
  - rewrite extract_primary_raises with (1 := Hd) (2 := Hh) (3 := Hc).
    rewrite report_error_log. now exists [].
Qed.

(** C4, as amended. The first call carries the SIMPLIFIED prompt when the
    document starts with [%PDF-1.3], and the STANDARD prompt when its header
    declares a version before 1.3, or 1.5 or later.  The test looks for 1.3
    alone: every header other than 1.3 goes with STANDARD. *)
Theorem first_prompt_by_version
    (pdf_content : pystr) (pdf_bytes : bytes) (log : list Request) :
  b64decode (PStr pdf_content) = Return pdf_bytes ->
  startswith Byte.eqb pdf_bytes (blit "%PDF-") = true ->
  instruction (primary_request pdf_bytes)
    = (if startswith Byte.eqb pdf_bytes (blit "%PDF-1.3") then SIMPLIFIED else STANDARD)
  /\ exists later,
       snd (extract pdf_content log) = log ++ primary_request pdf_bytes :: later.
Proof.
  intros Hd Hh. split; [now apply first_prompt_test | now apply extract_first_call].
Qed.

(** C7, as amended. Unless the first inference call raises an exception
    whose message cannot be logged, the Extractor does not raise and returns a
    mapping: either the error-annotated record of a failure path, with empty
    name and date fields, or the object [json.loads] read from the response.
    When the first call raises, the record's debugInfo is
    "Bedrock Claude PDF support error: " followed by the error message. *)
Theorem extractor_returns_a_mapping (pdf_content : pystr) (log : list Request) :
  (forall pdf_bytes e,
     b64decode (PStr pdf_content) = Return pdf_bytes ->
     startswith Byte.eqb pdf_bytes (blit "%PDF-") = true ->
     bedrock log (primary_request pdf_bytes) = Raise e ->
     printable (exn_str e) = true) ->
  exists v log',
    extract pdf_content log = (Return v, log')
    /\ is_dict v = true
    /\ ((exists debugInfo,
           v = PDict [("debugInfo", PStr debugInfo); ("firstName", PStr "");
                      ("lastName", PStr ""); ("dateOfBirth", PStr "")])
        \/ (exists json_str, json_loads (PStr json_str) = Return v))
    /\ (forall pdf_bytes e,
          b64decode (PStr pdf_content) = Return pdf_bytes ->
          startswith Byte.eqb pdf_bytes (blit "%PDF-") = true ->
          bedrock log (primary_request pdf_bytes) = Raise e ->
          v = PDict [("debugInfo",
                      PStr ("Bedrock Claude PDF support error: " ++ exn_str e));
                     ("firstName", PStr ""); ("lastName", PStr "");
                     ("dateOfBirth", PStr "")]
          /\ log' = log ++ [primary_request pdf_bytes]).
Proof.
  intros Hprintable.
  destruct (extract_outcome pdf_content log)
    as [(v & log' & Hex & Hdict & _ & Hshape)
       |(pdf_bytes & e & e' & Hd & Hh & Hc & Hm & _)].
  - exists v, log'. split; [exact Hex|]. split; [exact Hdict|]. split; [exact Hshape|].
    intros pdf_bytes e Hd Hh Hc.
    rewrite extract_primary_raises with (1 := Hd) (2 := Hh) (3 := Hc) in Hex.
    rewrite report_error_printable in Hex by exact (Hprintable _ _ Hd Hh Hc).
    now injection Hex as <- <-.
  - rewrite (Hprintable _ _ Hd Hh Hc) in Hm. discriminate.
Qed.

End ExtractorProperties.
(* ================================================================= *)
(** ** Properties of the Request Adapter *)

Section HandlerProperties.

Context {R : PyRuntime}.
Variable bedrock : Bedrock.

Local Abbreviation value := (pyval pyfloat).
Local Abbreviation extract := (extract_patient_data_with_claude_pdf_support bedrock).

Lemma method_POST_present (event : list (pystr * value)) :
  py_eq_str (dict_get event "httpMethod" (PStr "")) "POST" = true ->
  dict_has event "httpMethod" = true
  /\ py_eq_str (dict_get event "httpMethod" (PStr "")) "OPTIONS" = false.
Proof.
  unfold dict_get, dict_has.
  destruct (dict_lookup event "httpMethod") as [v|]; [|discriminate].
  intros H. split; [reflexivity|].
  destruct v; try discriminate. cbn in H. apply str_eqb_eq in H. now subst.
Qed.

Lemma method_absent (event : list (pystr * value)) :
  dict_has event "httpMethod" = false ->
  dict_get event "httpMethod" (PStr "") = PStr "".
Proof.
  unfold dict_get, dict_has.
  now destruct (dict_lookup event "httpMethod").
Qed.

(** The handler on a validated request, given what the Extractor returns. *)
Lemma handler_validated event context pdf_content log patient_data log' :
  validated event pdf_content ->
  extract pdf_content log = (Return patient_data, log') ->
  handler bedrock event context log =
    match py_get patient_data "debugInfo" (PStr "No debug info available") with
    | Return debugInfo =>
        (Return (http_response 200
                   (PDict [("success", PBool true);
                           ("message", PStr "PDF received and processed successfully");
                           ("contentLength", PInt (Z.of_nat (length pdf_content)));
                           ("timestamp", PStr (match context with
                                               | Some aws_request_id => aws_request_id
                                               | None => "unknown"
                                               end));
                           ("debugInfo", debugInfo);
                           ("patientData", patient_data)])), log')
    | Raise e =>
        (Return (http_response 500 (failure ("Internal server error: " ++ exn_str e))), log')
    end.
Proof.
  intros (Hpost & Hbody & body & request_data & Hdec & Hjson & Hget & Hne) Hex.
  destruct (method_POST_present _ Hpost) as [Hhas Hopt].
  unfold handler, try_except.
  rewrite Hopt, Hpost, Hbody, Hdec, Hjson. cbn [negb].
  unfold bind at 1, lift at 1. rewrite Hget.
  destruct pdf_content as [|c s]; [congruence|]. cbn [truthy negb].
  unfold bind at 1. rewrite Hex.
  unfold bind, lift. rewrite Hhas. cbn [negb].
  destruct (py_get patient_data _ _); reflexivity.
Qed.


(** C1. A request without an [httpMethod] field never reaches the Extractor:
    the method check answers it with the HTTP-shaped 405 response. *)
Theorem direct_invocation_answered_405
    (event : list (pystr * value)) (context : option pystr) (log : list Request) :
  dict_has event "httpMethod" = false ->
  handler bedrock event context log =
    (Return (PDict [("statusCode", PInt 405); ("headers", cors_headers);
                    ("body", PStr (json_dumps
                       (PDict [("success", PBool false);
                               ("error", PStr "Method not allowed. Only POST requests are supported.")])))]),
     log).
Proof.
  intros Hno. unfold handler, try_except.
  now rewrite (method_absent _ Hno).
Qed.

(** C9, as amended. When [base64.b64decode] raises on the [pdfContent] of a
    validated request, the Extractor's outer catch-all absorbs the error: the
    response is 200 with [success] true, the embedded patientData has empty
    name and date fields and a debugInfo that starts with
    "Bedrock Claude PDF support error:", and Bedrock is not called. *)
Theorem undecodable_pdf_content_answered_200
    (event : list (pystr * value)) (context : option pystr) (log : list Request)
    (pdf_content : pystr) (e : exn) :
  validated event pdf_content ->
  b64decode (PStr pdf_content) = Raise e ->
  let debugInfo := "Bedrock Claude PDF support error:" ++ " " ++ exn_str e in
  handler bedrock event context log =
    (Return (PDict [("statusCode", PInt 200); ("headers", cors_headers);
                    ("body", PStr (json_dumps
                       (PDict [("success", PBool true);
                               ("message", PStr "PDF received and processed successfully");
                               ("contentLength", PInt (Z.of_nat (length pdf_content)));
                               ("timestamp", PStr (match context with
                                                   | Some aws_request_id => aws_request_id
                                                   | None => "unknown"
                                                   end));
                               ("debugInfo", PStr debugInfo);
                               ("patientData",
                                PDict [("debugInfo", PStr debugInfo);
                                       ("firstName", PStr ""); ("lastName", PStr "");
                                       ("dateOfBirth", PStr "")])])))]),
     log).
Proof.
  intros Hv Hd debugInfo.
  rewrite handler_validated with (1 := Hv) (2 := extract_decode_error bedrock _ log Hd).
  reflexivity.
Qed.

(** C10. A POST whose body is JSON but not a JSON object is not answered
    400: the [get] on the parsed value raises, the top-level handler catches
    it, and the response is the 500 "Internal server error: ..." one. *)
Theorem non_object_body_answered_500
    (event : list (pystr * value)) (context : option pystr) (log : list Request)
    (body request_data : value) :
  py_eq_str (dict_get event "httpMethod" (PStr "")) "POST" = true ->
  truthy (dict_get event "body" (PStr "")) = true ->
  decoded_body event (dict_get event "body" (PStr "")) = Return body ->
  json_loads body = Return request_data ->
  is_dict request_data = false ->
  handler bedrock event context log =
    (Return (PDict [("statusCode", PInt 500); ("headers", cors_headers);
                    ("body", PStr (json_dumps
                       (PDict [("success", PBool false);
                               ("error", PStr ("Internal server error: " ++ "'"
                                               ++ type_name request_data
                                               ++ "' object has no attribute 'get'"))])))]),
     log).
Proof.
  intros Hpost Hbody Hdec Hjson Hnd.
  destruct (method_POST_present _ Hpost) as [Hhas Hopt].
  unfold handler, try_except.
  rewrite Hopt, Hpost, Hbody, Hdec, Hjson. cbn [negb].
  unfold bind at 1, lift at 1.
  destruct request_data; try discriminate; cbn [py_get]; rewrite Hhas; reflexivity.
Qed.

(** C5, as amended. The handler always answers with an HTTP-shaped response.
    The preflight response to OPTIONS has status 200, an empty body and three
    headers: allow-origin "*", allow-methods "POST, OPTIONS" and allow-headers
    "Content-Type, Authorization".  Every other response (405, 400, 200 and
    500) carries one fixed set: content-type "application/json", allow-origin
    "*", allow-methods "POST, OPTIONS, GET" and allow-headers "Content-Type,
    X-Amz-Date, Authorization, X-Api-Key, X-Amz-Security-Token". *)
Theorem response_headers
    (event : list (pystr * value)) (context : option pystr) (log : list Request) :
  exists response log',
    handler bedrock event context log = (Return response, log')
    /\ if py_eq_str (dict_get event "httpMethod" (PStr "")) "OPTIONS"
       then response =
              PDict [("statusCode", PInt 200);
                     ("headers",
                      PDict [("Access-Control-Allow-Origin", PStr "*");
                             ("Access-Control-Allow-Methods", PStr "POST, OPTIONS");
                             ("Access-Control-Allow-Headers",
                              PStr "Content-Type, Authorization")]);
                     ("body", PStr "")]
       else exists status body,
              response =
                PDict [("statusCode", PInt status);
                       ("headers",
                        PDict [("Content-Type", PStr "application/json");
                               ("Access-Control-Allow-Origin", PStr "*");
                               ("Access-Control-Allow-Methods", PStr "POST, OPTIONS, GET");
                               ("Access-Control-Allow-Headers",
                                PStr "Content-Type, X-Amz-Date, Authorization, X-Api-Key, X-Amz-Security-Token")]);
                       ("body", PStr body)]
              /\ In status [200; 400; 405; 500]%Z.
Proof.
  destruct (py_eq_str (dict_get event "httpMethod" (PStr "")) "OPTIONS") eqn:Hopt.
  - eexists _, _. unfold handler, try_except. rewrite Hopt. split; reflexivity.
  - assert (Hshape : forall status (body : value) (log' : list Request),
               In status [200; 400; 405; 500]%Z ->
               exists response log'',
                 (Return (http_response status body), log') = (Return response, log'')
                 /\ exists status' body',
                      response = PDict [("statusCode", PInt status');
                                        ("headers", cors_headers); ("body", PStr body')]
                      /\ In status' [200; 400; 405; 500]%Z).
    { intros status body log' Hin. eexists _, _. split; [reflexivity|].
      eexists _, _. split; [reflexivity | exact Hin]. }
    unfold handler, try_except. rewrite Hopt.
    destruct (py_eq_str (dict_get event "httpMethod" (PStr "")) "POST") eqn:Hpost;
      cbn [negb]; [|apply Hshape; cbn; auto].
    destruct (method_POST_present _ Hpost) as [Hhas _].
    rewrite Hhas. cbn [negb].
    destruct (truthy (dict_get event "body" (PStr ""))); cbn [negb];
      [|apply Hshape; cbn; auto].
    destruct (decoded_body event _) as [body|e]; [|apply Hshape; cbn; auto].
    destruct (json_loads body) as [request_data|e].
    + unfold bind at 1, lift at 1.
      destruct (py_get request_data "pdfContent" (PStr "")) as [pdf_content|e];
        [|apply Hshape; cbn; auto].
      destruct (truthy pdf_content); cbn [negb]; [|apply Hshape; cbn; auto].
      destruct pdf_content; try (apply Hshape; cbn; auto).
      unfold bind at 1.
      destruct (extract s log) as [[patient_data|e] log'];
        [|apply Hshape; cbn; auto].
      unfold bind, lift.
      destruct (py_get patient_data _ _); apply Hshape; cbn; auto.
    + destruct (is_JSONDecodeError e); apply Hshape; cbn; auto.
Qed.

End HandlerProperties.

(* ================================================================= *)
(** ** The handler on concrete requests (reference runtime) *)

(** C6 on a payload that decodes to [b'hello']. *)
Lemma missing_header_witness :
  Ref.b64decode (PStr not_a_pdf) = Return (blit "hello")
  /\ extract_patient_data_with_claude_pdf_support (scripted []) not_a_pdf []
     = (Return (PDict [("debugInfo", PStr "Invalid PDF file - missing PDF header");
                       ("firstName", PStr ""); ("lastName", PStr "");
                       ("dateOfBirth", PStr "")]), []).
Proof.
  split; [reflexivity|].
  apply (@missing_header_rejected_without_inference RefRuntime (scripted [])
           not_a_pdf (blit "hello") []); reflexivity.
Defined.

(** C8 does not hold as stated.  The response "} {" has a closing and an
    opening brace but no pair of them: the closing one comes first.  The
    Extractor does not report it as "No JSON response from Claude": it hands
    the empty text between the two to [json.loads] and reports the parse
    error. *)
Lemma inverted_braces_not_reported_as_no_json :
  str_find "} {" "{" = 2%Z
  /\ str_rfind "} {" "}" = 0%Z
  /\ exists debugInfo,
       extract_patient_data_with_claude_pdf_support (scripted [Return "} {"]) pdf_1_4 []
       = (Return (PDict [("debugInfo", PStr debugInfo); ("firstName", PStr "");
                         ("lastName", PStr ""); ("dateOfBirth", PStr "")]),
          [primary_request pdf_1_4_bytes])
       /\ debugInfo = "JSON parsing error: Expecting value: line 1 column 1 (char 0)"
                      ++ ". Response: } {"
       /\ startswith N.eqb debugInfo "No JSON response from Claude" = false.
Proof.
  split; [reflexivity|]. split; [reflexivity|].
  eexists. split; [vm_compute; reflexivity|]. split; reflexivity.
Qed.

(** C8, as amended, on a response without braces. *)
Lemma no_json_witness :
  extract_patient_data_with_claude_pdf_support
    (scripted [Return "I cannot read this document."]) pdf_1_4 []
  = (Return (PDict [("debugInfo",
                     PStr ("No JSON response from Claude" ++ ". Response: "
                           ++ firstn 200 "I cannot read this document."));
                    ("firstName", PStr ""); ("lastName", PStr "");
                    ("dateOfBirth", PStr "")]),
     [primary_request pdf_1_4_bytes]).
Proof.
  apply (@no_json_in_response RefRuntime (scripted [Return "I cannot read this document."])
           pdf_1_4 pdf_1_4_bytes [] [primary_request pdf_1_4_bytes]
           "I cannot read this document." "I cannot read this document.");
    first [reflexivity | left; reflexivity].
Defined.

(** C3 does not hold as stated.  The response holds an object with the keys
    firstName and nickname only; the Extractor returns exactly that object:
    no lastName (nor debugInfo, nor dateOfBirth) is added, and nickname stays. *)
Lemma parsed_object_is_not_coerced :
  exists parsed,
    fst (extract_patient_data_with_claude_pdf_support
           (scripted [Return (quoted "Here: {'firstName': 'Jane', 'nickname': 'JD'}")])
           pdf_1_4 [])
    = Return (PDict parsed)
    /\ parsed = [("firstName", PStr "Jane"); ("nickname", PStr "JD")]
    /\ dict_has parsed "lastName" = false
    /\ dict_has parsed "nickname" = true.
Proof.
  eexists. split; [vm_compute; reflexivity|]. repeat split.
Qed.

(** C3, as amended, on the same response. *)
Lemma parsed_object_witness :
  extract_patient_data_with_claude_pdf_support
    (scripted [Return (quoted "Here: {'firstName': 'Jane', 'nickname': 'JD'}")])
    pdf_1_4 []
  = (Return (PDict [("firstName", PStr "Jane"); ("nickname", PStr "JD")]),
     [primary_request pdf_1_4_bytes]).
Proof.
  apply (@parsed_object_returned_unchanged RefRuntime
           (scripted [Return (quoted "Here: {'firstName': 'Jane', 'nickname': 'JD'}")])
           pdf_1_4 pdf_1_4_bytes [] [primary_request pdf_1_4_bytes]
           (quoted "Here: {'firstName': 'Jane', 'nickname': 'JD'}")
           (quoted "Here: {'firstName': 'Jane', 'nickname': 'JD'}"));
    first [reflexivity | discriminate].
Defined.



(** C4 does not hold as stated.  The header declares version 1.2, which is
    older than 1.5, and the first call carries the STANDARD prompt. *)
Lemma older_versions_get_standard_prompt :
  Ref.b64decode (PStr "JVBERi0xLjIK") = Return (blit "%PDF-1.2" ++ [x0a])
  /\ map instruction
       (snd (extract_patient_data_with_claude_pdf_support
               (scripted [Return "{}"]) "JVBERi0xLjIK" []))
     = [STANDARD].
Proof. split; reflexivity. Qed.

(** C4, as amended, on a version 1.3 document. *)
Lemma first_prompt_witness :
  instruction (primary_request pdf_1_3_bytes) = SIMPLIFIED
  /\ exists later,
       snd (extract_patient_data_with_claude_pdf_support (scripted [Return "{}"]) pdf_1_3 [])
       = [] ++ primary_request pdf_1_3_bytes :: later.
Proof.
  apply (@first_prompt_by_version RefRuntime (scripted [Return "{}"])
           pdf_1_3 pdf_1_3_bytes []); reflexivity.
Defined.

(** C7 does not hold as stated, on two counts.  A response that holds the
    empty object makes the Extractor return [{}], which has none of the four
    fields; and when a retry raises, the exception is dropped: the record
    comes from the first response, with a name in it and no debugInfo to
    carry an error message. *)
Lemma extractor_result_not_always_a_patient_record :
  (exists parsed,
     fst (extract_patient_data_with_claude_pdf_support (scripted [Return "{}"]) pdf_1_4 [])
     = Return (PDict parsed)
     /\ dict_has parsed "debugInfo" = false
     /\ dict_has parsed "firstName" = false)
  /\ (exists parsed,
        fst (extract_patient_data_with_claude_pdf_support
               (scripted [Return (quoted "Page looks blank. {'firstName': 'Ann'}");
                          Raise (mk_exn Exception "Read timeout");
                          Raise (mk_exn Exception "Read timeout")])
               pdf_1_4 [])
        = Return (PDict parsed)
        /\ dict_lookup parsed "firstName" = Some (PStr "Ann")
        /\ dict_has parsed "debugInfo" = false).
Proof.
  split; eexists; (split; [vm_compute; reflexivity | split; reflexivity]).
Qed.

(** C7, as amended, on a first call that raises. *)
Lemma extractor_returns_a_mapping_witness :
  exists v log',
    extract_patient_data_with_claude_pdf_support
      (scripted [Raise (mk_exn Exception "Read timeout")]) pdf_1_4 []
    = (Return v, log')
    /\ v = patient_record "Bedrock Claude PDF support error: Read timeout"
    /\ log' = [primary_request pdf_1_4_bytes].
Proof.
  assert (Hprintable :
            forall pdf_bytes e,
              Ref.b64decode (PStr pdf_1_4) = Return pdf_bytes ->
              startswith Byte.eqb pdf_bytes (blit "%PDF-") = true ->
              scripted [Raise (mk_exn Exception "Read timeout")] []
                (primary_request pdf_bytes) = Raise e ->
              printable (exn_str e) = true).
  { intros pdf_bytes e _ _ He. injection He as <-. reflexivity. }
  destruct (@extractor_returns_a_mapping RefRuntime
              (scripted [Raise (mk_exn Exception "Read timeout")]) pdf_1_4 [] Hprintable)
    as (v & log' & Hrun & _ & _ & Hraise).
  exists v, log'. split; [exact Hrun|].
  apply (Hraise pdf_1_4_bytes (mk_exn Exception "Read timeout")); reflexivity.
Defined.

(** C5 does not hold as stated.  The preflight response allows POST and
    OPTIONS but not GET, and only the Content-Type and Authorization
    headers. *)
Lemma preflight_headers_differ :
  exists headers,
    fst (handler (scripted []) [("httpMethod", PStr "OPTIONS")] None [])
    = Return (PDict [("statusCode", PInt 200); ("headers", PDict headers);
                     ("body", PStr "")])
    /\ dict_lookup headers "Access-Control-Allow-Methods" = Some (PStr "POST, OPTIONS")
    /\ dict_lookup headers "Access-Control-Allow-Headers"
       = Some (PStr "Content-Type, Authorization")
    /\ dict_lookup headers "Content-Type" = None.
Proof.
  eexists. split; [reflexivity|]. repeat split.
Qed.

(** C1 on a request that has a body and no [httpMethod]. *)
Lemma direct_invocation_witness :
  handler (scripted [Return "{}"])
    [("body", PStr (quoted "{'pdfContent': 'JVBERi0xLjQK'}"))] None []
  = (Return (PDict [("statusCode", PInt 405); ("headers", cors_headers);
                    ("body", PStr (json_dumps
                       (PDict [("success", PBool false);
                               ("error", PStr "Method not allowed. Only POST requests are supported.")])))]),
     []).
Proof.
  apply (@direct_invocation_answered_405 RefRuntime (scripted [Return "{}"])
           [("body", PStr (quoted "{'pdfContent': 'JVBERi0xLjQK'}"))] None []).
  reflexivity.
Defined.

(** C9 does not hold as stated.  ["!!!!"] is not base64, but [b64decode]
    does not raise on it: it drops the four characters and returns no bytes.
    The response is 200 with the debugInfo of the header check. *)
Lemma lenient_base64_is_not_a_decode_error :
  well_formed_base64 "!!!!" = false
  /\ validated (post (quoted "{'pdfContent': '!!!!'}")) "!!!!"
  /\ handler (scripted []) (post (quoted "{'pdfContent': '!!!!'}")) None []
     = (Return (http_response 200
                  (PDict [("success", PBool true);
                          ("message", PStr "PDF received and processed successfully");
                          ("contentLength", PInt 4);
                          ("timestamp", PStr "unknown");
                          ("debugInfo", PStr "Invalid PDF file - missing PDF header");
                          ("patientData",
                           patient_record "Invalid PDF file - missing PDF header")])),
        []).
Proof.
  split; [reflexivity|]. split; [|reflexivity].
  split; [reflexivity|]. split; [reflexivity|].
  exists (PStr (quoted "{'pdfContent': '!!!!'}")), (PDict [("pdfContent", PStr "!!!!")]).
  repeat split; discriminate.
Qed.

(** C9, as amended, on a payload with a wrong padding. *)
Lemma undecodable_pdf_content_witness :
  Ref.b64decode (PStr "abc") = Raise (mk_exn ValueError "Incorrect padding")
  /\ handler (scripted []) (post (quoted "{'pdfContent': 'abc'}")) None []
     = (Return (http_response 200
                  (PDict [("success", PBool true);
                          ("message", PStr "PDF received and processed successfully");
                          ("contentLength", PInt 3);
                          ("timestamp", PStr "unknown");
                          ("debugInfo",
                           PStr "Bedrock Claude PDF support error: Incorrect padding");
                          ("patientData",
                           patient_record
                             "Bedrock Claude PDF support error: Incorrect padding")])),
        []).
Proof.
  split; [reflexivity|].
  refine (@undecodable_pdf_content_answered_200 RefRuntime (scripted [])
            (post (quoted "{'pdfContent': 'abc'}")) None [] "abc"
            (mk_exn ValueError "Incorrect padding") _ _); [|reflexivity].
  split; [reflexivity|]. split; [reflexivity|].
  exists (PStr (quoted "{'pdfContent': 'abc'}")), (PDict [("pdfContent", PStr "abc")]).
  repeat split; discriminate.
Defined.

(** C10 on a body that is a JSON array. *)
Lemma non_object_body_witness :
  handler (scripted []) (post "[1, 2]") None []
  = (Return (http_response 500
               (failure "Internal server error: 'list' object has no attribute 'get'")),
     []).
Proof.
  apply (@non_object_body_answered_500 RefRuntime (scripted [])
           (post "[1, 2]") None [] (PStr "[1, 2]") (PList [PInt 1; PInt 2]));
    reflexivity.
Defined.

(* ================================================================= *)
(** ** Further properties of the Request Adapter: the validation ladder *)

Section ValidationLadder.

Context {R : PyRuntime}.
Variable bedrock : Bedrock.

Local Abbreviation value := (pyval pyfloat).
Local Abbreviation extract := (extract_patient_data_with_claude_pdf_support bedrock).

(** X1. An OPTIONS request is answered with the preflight response whatever
    else the event holds (body, flags), and Bedrock is not called. *)
Theorem preflight_short_circuits
    (event : list (pystr * value)) (context : option pystr) (log : list Request) :
  py_eq_str (dict_get event "httpMethod" (PStr "")) "OPTIONS" = true ->
  handler bedrock event context log =
    (Return (PDict [("statusCode", PInt 200);
                    ("headers",
                     PDict [("Access-Control-Allow-Origin", PStr "*");
                            ("Access-Control-Allow-Methods", PStr "POST, OPTIONS");
                            ("Access-Control-Allow-Headers",
                             PStr "Content-Type, Authorization")]);
                    ("body", PStr "")]),
     log).
Proof.
  intros Hopt. unfold handler, try_except. now rewrite Hopt.
Qed.

(** X2. Any method value other than the exact strings "OPTIONS" and "POST"
    (another verb, a different case, a value that is not a string) is
    answered 405 with the "Method not allowed" error, and Bedrock is not
    called. *)
Theorem other_methods_answered_405
    (event : list (pystr * value)) (context : option pystr) (log : list Request) :
  py_eq_str (dict_get event "httpMethod" (PStr "")) "OPTIONS" = false ->
  py_eq_str (dict_get event "httpMethod" (PStr "")) "POST" = false ->
  handler bedrock event context log =
    (Return (PDict [("statusCode", PInt 405); ("headers", cors_headers);
                    ("body", PStr (json_dumps
                       (PDict [("success", PBool false);
                               ("error", PStr "Method not allowed. Only POST requests are supported.")])))]),
     log).
Proof.
  intros Hopt Hpost. unfold handler, try_except. now rewrite Hopt, Hpost.
Qed.

(** X3. A POST whose body is missing or falsy ([None], the empty string, an
    empty object, zero) is answered 400 "No PDF content provided in request
    body."; the base64 flag is not looked at. *)
Theorem empty_body_answered_400
    (event : list (pystr * value)) (context : option pystr) (log : list Request) :
  py_eq_str (dict_get event "httpMethod" (PStr "")) "POST" = true ->
  truthy (dict_get event "body" (PStr "")) = false ->
  handler bedrock event context log =
    (Return (PDict [("statusCode", PInt 400); ("headers", cors_headers);
                    ("body", PStr (json_dumps
                       (PDict [("success", PBool false);
                               ("error", PStr "No PDF content provided in request body.")])))]),
     log).
Proof.
  intros Hpost Hbody. destruct (method_POST_present _ Hpost) as [_ Hopt].
  unfold handler, try_except. now rewrite Hopt, Hpost, Hbody.
Qed.

(** X4. When the event is flagged as base64 and decoding its body raises
    (in [b64decode] or in the UTF-8 decoding of the bytes), the answer is 400
    with "Failed to decode request body: " followed by the error message. *)
Theorem undecodable_body_answered_400
    (event : list (pystr * value)) (context : option pystr) (log : list Request)
    (e : exn) :
  py_eq_str (dict_get event "httpMethod" (PStr "")) "POST" = true ->
  truthy (dict_get event "body" (PStr "")) = true ->
  decoded_body event (dict_get event "body" (PStr "")) = Raise e ->
  truthy (dict_get event "isBase64Encoded" (PBool false)) = true
  /\ handler bedrock event context log =
       (Return (PDict [("statusCode", PInt 400); ("headers", cors_headers);
                       ("body", PStr (json_dumps
                          (PDict [("success", PBool false);
                                  ("error", PStr ("Failed to decode request body: "
                                                  ++ exn_str e))])))]),
        log).
Proof.
  intros Hpost Hbody Hdec. destruct (method_POST_present _ Hpost) as [_ Hopt].
  split.
  - unfold decoded_body in Hdec.
    destruct (truthy (dict_get event "isBase64Encoded" (PBool false)));
      [reflexivity | discriminate].
  - unfold handler, try_except. now rewrite Hopt, Hpost, Hbody, Hdec.
Qed.

(** X5. When [json.loads] rejects the body with a [JSONDecodeError], the
    answer is 400 with "Invalid JSON in request body: " followed by the
    error message. *)
Theorem malformed_json_answered_400
    (event : list (pystr * value)) (context : option pystr) (log : list Request)
    (body : value) (e : exn) :
  py_eq_str (dict_get event "httpMethod" (PStr "")) "POST" = true ->
  truthy (dict_get event "body" (PStr "")) = true ->
  decoded_body event (dict_get event "body" (PStr "")) = Return body ->
  json_loads body = Raise e ->
  is_JSONDecodeError e = true ->
  handler bedrock event context log =
    (Return (PDict [("statusCode", PInt 400); ("headers", cors_headers);
                    ("body", PStr (json_dumps
                       (PDict [("success", PBool false);
                               ("error", PStr ("Invalid JSON in request body: "
                                               ++ exn_str e))])))]),
     log).
Proof.
  intros Hpost Hbody Hdec Hjson He. destruct (method_POST_present _ Hpost) as [_ Hopt].
  unfold handler, try_except. now rewrite Hopt, Hpost, Hbody, Hdec, Hjson, He.
Qed.

(** X6. Only [JSONDecodeError] is caught around [json.loads]: any other
    exception it raises (a [TypeError] for a body that is not a string, as
    when the event carries the body as an object) goes to the top-level
    handler and is answered 500 "Internal server error: ...". *)
Theorem other_json_failure_answered_500
    (event : list (pystr * value)) (context : option pystr) (log : list Request)
    (body : value) (e : exn) :
  py_eq_str (dict_get event "httpMethod" (PStr "")) "POST" = true ->
  truthy (dict_get event "body" (PStr "")) = true ->
  decoded_body event (dict_get event "body" (PStr "")) = Return body ->
  json_loads body = Raise e ->
  is_JSONDecodeError e = false ->
  handler bedrock event context log =
    (Return (PDict [("statusCode", PInt 500); ("headers", cors_headers);
                    ("body", PStr (json_dumps
                       (PDict [("success", PBool false);
                               ("error", PStr ("Internal server error: "
                                               ++ exn_str e))])))]),
     log).
Proof.
  intros Hpost Hbody Hdec Hjson He. destruct (method_POST_present _ Hpost) as [Hhas Hopt].
  unfold handler, try_except.
  rewrite Hopt, Hpost, Hbody, Hdec, Hjson, He. cbn [negb raise].
  unfold raise. now rewrite Hhas.
Qed.

(** X7. A JSON object body without a "pdfContent" key, or with a falsy value
    under it (empty string, null, 0, false, an empty list), is answered 400
    with the error that names the expected field. *)
Theorem missing_pdf_content_answered_400
    (event : list (pystr * value)) (context : option pystr) (log : list Request)
    (body : value) (request_data : list (pystr * value)) :
  py_eq_str (dict_get event "httpMethod" (PStr "")) "POST" = true ->
  truthy (dict_get event "body" (PStr "")) = true ->
  decoded_body event (dict_get event "body" (PStr "")) = Return body ->
  json_loads body = Return (PDict request_data) ->
  truthy (dict_get request_data "pdfContent" (PStr "")) = false ->
  handler bedrock event context log =
    (Return (PDict [("statusCode", PInt 400); ("headers", cors_headers);
                    ("body", PStr (json_dumps
                       (PDict [("success", PBool false);
                               ("error", PStr ("No PDF content found in request. Expected "
                                               ++ dq ++ "pdfContent" ++ dq
                                               ++ " field."))])))]),
     log).
Proof.
  intros Hpost Hbody Hdec Hjson Hpdf. destruct (method_POST_present _ Hpost) as [_ Hopt].
  unfold handler, try_except.
  rewrite Hopt, Hpost, Hbody, Hdec, Hjson. cbn [negb].
  unfold bind at 1, lift at 1. cbn [py_get]. now rewrite Hpdf.
Qed.

(** X8. A truthy "pdfContent" that is not a string (a number, [true], a list,
    an object) is answered 400 "PDF content must be a string."; the Extractor
    is not called. *)
Theorem non_string_pdf_content_answered_400
    (event : list (pystr * value)) (context : option pystr) (log : list Request)
    (body : value) (request_data : list (pystr * value)) :
  py_eq_str (dict_get event "httpMethod" (PStr "")) "POST" = true ->
  truthy (dict_get event "body" (PStr "")) = true ->
  decoded_body event (dict_get event "body" (PStr "")) = Return body ->
  json_loads body = Return (PDict request_data) ->
  truthy (dict_get request_data "pdfContent" (PStr "")) = true ->
  type_name (dict_get request_data "pdfContent" (PStr "")) <> "str" ->
  handler bedrock event context log =
    (Return (PDict [("statusCode", PInt 400); ("headers", cors_headers);
                    ("body", PStr (json_dumps
                       (PDict [("success", PBool false);
                               ("error", PStr "PDF content must be a string.")])))]),
     log).
Proof.
  intros Hpost Hbody Hdec Hjson Hpdf Hty. destruct (method_POST_present _ Hpost) as [_ Hopt].
  unfold handler, try_except.
  rewrite Hopt, Hpost, Hbody, Hdec, Hjson. cbn [negb].
  unfold bind at 1, lift at 1. cbn [py_get]. rewrite Hpdf. cbn [negb].
  destruct (dict_get request_data "pdfContent" (PStr "")); try reflexivity.
  now contradiction Hty.
Qed.

End ValidationLadder.

(* ================================================================= *)
(** ** Further properties of the Extractor *)

(** A slice whose upper bound does not exceed its lower bound is empty. *)
Lemma py_slice_empty A (s : list A) (lo hi : Z) :
  (0 <= hi <= lo)%Z -> py_slice s lo hi = [].
Proof.
  intros H. unfold py_slice, clamp_index.
  destruct (Z.ltb_spec lo 0); [lia|]. destruct (Z.ltb_spec hi 0); [lia|].
  replace (Z.to_nat (Z.min hi (Z.of_nat (length s)) - Z.min lo (Z.of_nat (length s))))
    with 0%nat by lia.
  reflexivity.
Qed.

Section ExtractorMore.

Context {R : PyRuntime}.
Variable bedrock : Bedrock.

Local Abbreviation value := (pyval pyfloat).
Local Abbreviation extract := (extract_patient_data_with_claude_pdf_support bedrock).

(** The calls of the retry loop are those of a prefix of its approaches. *)
Lemma try_alternatives_calls i approaches claude_response log :
  exists n,
    snd (try_alternatives bedrock i approaches claude_response log)
    = log ++ map snd (firstn n approaches).
Proof.
  revert i log. induction approaches as [|[name req] rest IH]; intros i log.
  - exists 0%nat. cbn. now rewrite app_nil_r.
  - destruct (retry_outcome (bedrock log req)) as [alt| |] eqn:Ho.
    + rewrite try_alternatives_adopt with (1 := Ho). now exists 1%nat.
    + rewrite try_alternatives_skip with (1 := Ho).
      destruct (IH (i + 1)%N (log ++ [req])) as [n Hn]. exists (S n).
      rewrite Hn, <- app_assoc. reflexivity.
    + destruct (@try_alternatives_abort _ bedrock i name req rest claude_response log Ho)
        as (e & _ & ->).
      now exists 1%nat.
Qed.

(** The calls of one run of the Extractor: none, or a non-empty prefix of the
    three requests built from the decoded document. *)
Lemma extract_calls pdf_content log :
  exists calls,
    snd (extract pdf_content log) = log ++ calls
    /\ (calls = []
        \/ exists pdf_bytes n,
             b64decode (PStr pdf_content) = Return pdf_bytes
             /\ startswith Byte.eqb pdf_bytes (blit "%PDF-") = true
             /\ calls = primary_request pdf_bytes
                        :: firstn n [first_retry pdf_bytes; second_retry pdf_bytes]).
Proof.
  destruct (b64decode (PStr pdf_content)) as [pdf_bytes|e] eqn:Hd.
  - destruct (startswith Byte.eqb pdf_bytes (blit "%PDF-")) eqn:Hh.
    + assert (Hlog : exists n,
                 snd (extract pdf_content log)
                 = (log ++ [primary_request pdf_bytes])
                   ++ firstn n [first_retry pdf_bytes; second_retry pdf_bytes]).
      { destruct (bedrock log (primary_request pdf_bytes)) as [r1|e] eqn:Hc.
        - destruct (printable (py_slice r1 0 200)) eqn:Hp.
          + rewrite extract_log_chosen with (1 := Hd) (2 := Hh) (3 := Hc) (4 := Hp).
            unfold choose_response. destruct (reports_empty r1).
            * destruct (try_alternatives_calls 0 (alternative_approaches pdf_bytes) r1
                          (log ++ [primary_request pdf_bytes])) as [n Hn].
              exists n. rewrite Hn. f_equal. rewrite <- firstn_map. reflexivity.
            * exists 0%nat. cbn. now rewrite app_nil_r.
          + destruct (@extract_preview_raises _ bedrock pdf_content pdf_bytes r1 log
                        Hd Hh Hc Hp) as (e' & _ & ->).
            exists 0%nat. cbn. now rewrite app_nil_r.
        - rewrite extract_primary_raises with (1 := Hd) (2 := Hh) (3 := Hc).
          rewrite report_error_log. exists 0%nat. cbn. now rewrite app_nil_r. }
      destruct Hlog as [n Hlog].
      eexists. split; [rewrite Hlog, <- app_assoc; reflexivity|].
      right. exists pdf_bytes, n. auto.
    + rewrite extract_bad_header with (1 := Hd) (2 := Hh).
      exists []. split; [cbn; now rewrite app_nil_r | now left].
  - rewrite extract_decode_error with (1 := Hd).
    exists []. split; [cbn; now rewrite app_nil_r | now left].
Qed.

Lemma extract_calls_bound pdf_content log :
  exists calls, snd (extract pdf_content log) = log ++ calls /\ (length calls <= 3)%nat.
Proof.
  destruct (extract_calls pdf_content log) as (calls & Hlog & Hcalls).
  exists calls. split; [exact Hlog|].
  destruct Hcalls as [->|(b & n & _ & _ & ->)]; cbn [length]; [lia|].
  rewrite length_firstn. cbn [length]. lia.
Qed.

(** X9. On a validated request the response is 200 and its body reports the
    Extractor's record: [patientData] is the record itself, the top-level
    [debugInfo] is the record's debugInfo or "No debug info available" when
    the record has none, [contentLength] is the number of characters of the
    pdfContent string, and [timestamp] is the request id of the context or
    "unknown". *)
Theorem validated_request_success_response
    (event : list (pystr * value)) (context : option pystr) (log log' : list Request)
    (pdf_content : pystr) (patient_data : list (pystr * value)) :
  validated event pdf_content ->
  extract pdf_content log = (Return (PDict patient_data), log') ->
  handler bedrock event context log =
    (Return (PDict [("statusCode", PInt 200); ("headers", cors_headers);
                    ("body", PStr (json_dumps
                       (PDict [("success", PBool true);
                               ("message", PStr "PDF received and processed successfully");
                               ("contentLength", PInt (Z.of_nat (length pdf_content)));
                               ("timestamp", PStr (match context with
                                                   | Some aws_request_id => aws_request_id
                                                   | None => "unknown"
                                                   end));
                               ("debugInfo",
                                match dict_lookup patient_data "debugInfo" with
                                | Some debugInfo => debugInfo
                                | None => PStr "No debug info available"
                                end);
                               ("patientData", PDict patient_data)])))]),
     log').
Proof.
  intros Hv Hex. now rewrite handler_validated with (1 := Hv) (2 := Hex).
Qed.

(** X10. When the first response does not report an empty document, no retry
    is made: the run makes exactly one call, and, when the preview of the
    response can be logged, goes on to parse that response. *)
Theorem single_call_without_empty_report
    (pdf_content : pystr) (pdf_bytes : bytes) (log : list Request) (r1 : pystr) :
  b64decode (PStr pdf_content) = Return pdf_bytes ->
  startswith Byte.eqb pdf_bytes (blit "%PDF-") = true ->
  bedrock log (primary_request pdf_bytes) = Return r1 ->
  reports_empty r1 = false ->
  snd (extract pdf_content log) = log ++ [primary_request pdf_bytes]
  /\ (printable (py_slice r1 0 200) = true ->
      extract pdf_content log = parse_guarded r1 (log ++ [primary_request pdf_bytes])).
Proof.
  intros Hd Hh Hc He.
  assert (Hrun : printable (py_slice r1 0 200) = true ->
                 extract pdf_content log
                 = parse_guarded r1 (log ++ [primary_request pdf_bytes])).
  { intros Hp. apply extract_chosen with (pdf_bytes := pdf_bytes) (r1 := r1);
      try assumption.
    unfold choose_response. now rewrite He. }
  split; [|exact Hrun].
  destruct (printable (py_slice r1 0 200)) eqn:Hp.
  - now rewrite Hrun, parse_guarded_log.
  - destruct (@extract_preview_raises _ bedrock pdf_content pdf_bytes r1 log Hd Hh Hc Hp)
      as (e' & _ & ->).
    reflexivity.
Qed.

(** X11. When the text between the first opening and the last closing brace
    is not JSON, and the response holds no lone surrogate, the Extractor
    returns an error-annotated record.  For a [ValueError] (a
    [JSONDecodeError] included) the debugInfo is
    "JSON parsing error: <message>. Response: " followed by the first 200
    characters of the response; any other exception of [json.loads] reaches
    the outer handler and gives "Bedrock Claude PDF support error: <message>". *)
Theorem unparsable_json_record
    (pdf_content : pystr) (pdf_bytes : bytes) (log log' : list Request)
    (r1 claude_response : pystr) (e : exn) :
  b64decode (PStr pdf_content) = Return pdf_bytes ->
  startswith Byte.eqb pdf_bytes (blit "%PDF-") = true ->
  bedrock log (primary_request pdf_bytes) = Return r1 ->
  printable (py_slice r1 0 200) = true ->
  choose_response bedrock pdf_bytes r1 (log ++ [primary_request pdf_bytes])
    = (Return claude_response, log') ->
  printable claude_response = true ->
  str_find claude_response "{" <> (-1)%Z ->
  str_rfind claude_response "}" <> (-1)%Z ->
  json_loads (PStr (py_slice claude_response (str_find claude_response "{")
                                             (str_rfind claude_response "}" + 1)))
    = Raise e ->
  extract pdf_content log =
    (Return (PDict [("debugInfo",
                     PStr (if is_ValueError e
                           then "JSON parsing error: " ++ exn_str e ++ ". Response: "
                                ++ firstn 200 claude_response
                           else "Bedrock Claude PDF support error: " ++ exn_str e));
                    ("firstName", PStr ""); ("lastName", PStr "");
                    ("dateOfBirth", PStr "")]),
     log').
Proof.
  intros Hd Hh Hc Hp Hch Hr H1 H2 Hj.
  rewrite extract_chosen with (1 := Hd) (2 := Hh) (3 := Hc) (4 := Hp) (5 := Hch).
  rewrite parse_guarded_json_error with (e := e) by assumption.
  now destruct (is_ValueError e).
Qed.

(** X12. A response whose last closing brace comes before its first opening
    brace (as in "} {") is not treated as having no JSON: the slice between
    the two is empty, [json.loads] raises on it, and the record carries the
    parse error instead of "No JSON response from Claude". *)
Theorem inverted_braces_are_a_parse_error
    (pdf_content : pystr) (pdf_bytes : bytes) (log log' : list Request)
    (r1 claude_response : pystr) :
  b64decode (PStr pdf_content) = Return pdf_bytes ->
  startswith Byte.eqb pdf_bytes (blit "%PDF-") = true ->
  bedrock log (primary_request pdf_bytes) = Return r1 ->
  printable (py_slice r1 0 200) = true ->
  choose_response bedrock pdf_bytes r1 (log ++ [primary_request pdf_bytes])
    = (Return claude_response, log') ->
  printable claude_response = true ->
  (0 <= str_rfind claude_response "}" < str_find claude_response "{")%Z ->
  exists e,
    json_loads (PStr []) = Raise e
    /\ extract pdf_content log =
         (Return (patient_record
                    (if is_ValueError e
                     then "JSON parsing error: " ++ exn_str e ++ ". Response: "
                          ++ firstn 200 claude_response
                     else "Bedrock Claude PDF support error: " ++ exn_str e)),
          log').
Proof.
  intros Hd Hh Hc Hp Hch Hr Hinv.
  destruct (json_loads (PStr [])) as [v|e] eqn:Hj; [now apply json_loads_empty in Hj|].
  exists e. split; [reflexivity|].
  rewrite extract_chosen with (1 := Hd) (2 := Hh) (3 := Hc) (4 := Hp) (5 := Hch).
  rewrite parse_guarded_json_error with (e := e); try assumption; try lia.
  - now destruct (is_ValueError e).
  - now rewrite py_slice_empty by lia.
Qed.

(** X13. One run of the Extractor adds at most three calls to the log, all
    with the same model id (the "Different model" approach included) and
    with the decoded document attached; it adds none unless the payload
    decodes to bytes that start with the PDF signature. *)
Theorem extractor_call_sequence (pdf_content : pystr) (log : list Request) :
  exists calls,
    snd (extract pdf_content log) = log ++ calls
    /\ (length calls <= 3)%nat
    /\ Forall (fun req => modelId req = "anthropic.claude-3-5-sonnet-20241022-v2:0") calls
    /\ (calls <> [] ->
        exists pdf_bytes,
          b64decode (PStr pdf_content) = Return pdf_bytes
          /\ startswith Byte.eqb pdf_bytes (blit "%PDF-") = true
          /\ Forall (fun req => document_bytes req = pdf_bytes) calls).
Proof.
  destruct (extract_calls pdf_content log) as (calls & Hlog & Hcalls).
  exists calls. split; [exact Hlog|].
  destruct Hcalls as [->|(pdf_bytes & n & Hd & Hh & ->)].
  - split; [cbn; lia|]. split; [constructor|]. now intros [].
  - assert (Hmodel : modelId (primary_request pdf_bytes) = model_id).
    { unfold primary_request, first_request. now destruct (str_in _ _). }
    assert (Hdoc : document_bytes (primary_request pdf_bytes) = pdf_bytes).
    { unfold primary_request, first_request. now destruct (str_in _ _). }
    split; [cbn [length]; rewrite length_firstn; cbn [length]; lia|].
    split.
    + constructor; [exact Hmodel|].
      destruct n as [|[|n]]; cbn [firstn]; rewrite ?firstn_nil; repeat constructor.
    + intros _. exists pdf_bytes. split; [exact Hd|]. split; [exact Hh|].
      constructor; [exact Hdoc|].
      destruct n as [|[|n]]; cbn [firstn]; rewrite ?firstn_nil; repeat constructor.
Qed.






(** X24. The version text decoded from the first eight bytes of the
    document holds no surrogate, whatever the bytes: the [print] calls that
    quote it cannot raise. *)
Theorem version_text_is_printable (pdf_bytes : bytes) :
  let pdf_version := decode_utf8_ignore (py_slice pdf_bytes 0 8) in
  printable pdf_version = true
  /\ py_print ([0x1F4CB%N] ++ " PDF version: " ++ pdf_version) = Return tt.
Proof.
  intros pdf_version.
  assert (H : printable pdf_version = true) by apply decode_utf8_ignore_printable.
  split; [exact H|]. apply py_print_printable. printable_parts.
Qed.

End ExtractorMore.

(* ================================================================= *)
(** ** Further properties of the Request Adapter: the whole handler *)

Section HandlerMore.

Context {R : PyRuntime}.
Variable bedrock : Bedrock.

Local Abbreviation value := (pyval pyfloat).
Local Abbreviation extract := (extract_patient_data_with_claude_pdf_support bedrock).

(** The handler reads the event through its method and its decoded body
    only. *)
Lemma handler_same_decoded_body
    (event1 event2 : list (pystr * value)) (context : option pystr)
    (log : list Request) (body : value) :
  py_eq_str (dict_get event1 "httpMethod" (PStr "")) "POST" = true ->
  py_eq_str (dict_get event2 "httpMethod" (PStr "")) "POST" = true ->
  truthy (dict_get event1 "body" (PStr "")) = true ->
  truthy (dict_get event2 "body" (PStr "")) = true ->
  decoded_body event1 (dict_get event1 "body" (PStr "")) = Return body ->
  decoded_body event2 (dict_get event2 "body" (PStr "")) = Return body ->
  handler bedrock event1 context log = handler bedrock event2 context log.
Proof.
  intros Hp1 Hp2 Hb1 Hb2 Hd1 Hd2.
  destruct (method_POST_present _ Hp1) as [Hh1 Ho1].
  destruct (method_POST_present _ Hp2) as [Hh2 Ho2].
  unfold handler.
  rewrite Ho1, Ho2, Hp1, Hp2, Hb1, Hb2, Hd1, Hd2, Hh1, Hh2. reflexivity.
Qed.

(** X14. One invocation of the handler adds at most three Bedrock calls, and
    none at all unless the request passes the whole validation. *)
Theorem handler_call_budget
    (event : list (pystr * value)) (context : option pystr) (log : list Request) :
  exists calls,
    snd (handler bedrock event context log) = log ++ calls
    /\ (length calls <= 3)%nat
    /\ (calls <> [] -> exists pdf_content, validated event pdf_content).
Proof.
  assert (Hnone : forall response : value,
             exists calls,
               snd (Return response, log) = log ++ calls
               /\ (length calls <= 3)%nat
               /\ (calls <> [] -> exists pdf_content, validated event pdf_content)).
  { intros response. exists []. cbn. rewrite app_nil_r.
    split; [reflexivity|]. split; [lia | congruence]. }
  unfold handler, try_except.
  destruct (py_eq_str (dict_get event "httpMethod" (PStr "")) "OPTIONS") eqn:Hopt;
    [apply Hnone|].
  destruct (py_eq_str (dict_get event "httpMethod" (PStr "")) "POST") eqn:Hpost;
    cbn [negb]; [|apply Hnone].
  destruct (method_POST_present _ Hpost) as [Hhas _]. rewrite Hhas. cbn [negb].
  destruct (truthy (dict_get event "body" (PStr ""))) eqn:Hbody; cbn [negb];
    [|apply Hnone].
  destruct (decoded_body event _) as [body|e] eqn:Hdec; [|apply Hnone].
  destruct (json_loads body) as [request_data|e] eqn:Hjson.
  - unfold bind at 1, lift at 1.
    destruct (py_get request_data "pdfContent" (PStr "")) as [pdf_content|e] eqn:Hget;
      [|apply Hnone].
    destruct (truthy pdf_content) eqn:Hpdf; cbn [negb]; [|apply Hnone].
    destruct pdf_content as [| | | |s| |]; try apply Hnone.
    unfold bind at 1.
    destruct (extract_calls_bound bedrock s log) as (calls & Hlog & Hlen).
    destruct (extract s log) as [[patient_data|e] log'] eqn:Hex;
      cbn [snd] in Hlog; subst log'.
    all: exists calls; split;
      [unfold bind, lift; cbn [is_Exception];
       try (destruct (py_get patient_data _ _)); reflexivity|].
    all: split; [exact Hlen|]; intros _; exists s.
    all: split; [exact Hpost|]; split; [exact Hbody|];
      exists body, request_data; repeat split; try assumption;
      intros ->; discriminate.
  - destruct (is_JSONDecodeError e); apply Hnone.
Qed.

(** X15. In every response other than the preflight one, the [success] flag
    of the body agrees with the status: it is true exactly for status 200,
    and a response with another status carries nothing but the flag and an
    [error] text. *)
Theorem success_flag_matches_status
    (event : list (pystr * value)) (context : option pystr) (log : list Request) :
  py_eq_str (dict_get event "httpMethod" (PStr "")) "OPTIONS" = false ->
  exists status payload log',
    handler bedrock event context log =
      (Return (PDict [("statusCode", PInt status); ("headers", cors_headers);
                      ("body", PStr (json_dumps
                         (PDict (("success", PBool (status =? 200)%Z) :: payload))))]),
       log')
    /\ (status <> 200%Z -> exists error, payload = [("error", PStr error)]).
Proof.
  intros Hopt.
  assert (Hfail : forall status error (log' : list Request),
             (status =? 200)%Z = false ->
             exists status' payload log'',
               (Return (http_response status (failure error)), log') =
                 (Return (PDict [("statusCode", PInt status'); ("headers", cors_headers);
                                 ("body", PStr (json_dumps
                                    (PDict (("success", PBool (status' =? 200)%Z)
                                            :: payload))))]),
                  log'')
               /\ (status' <> 200%Z -> exists error', payload = [("error", PStr error')])).
  { intros status error log' Hs. exists status, [("error", PStr error)], log'.
    unfold http_response, failure. rewrite Hs. split; [reflexivity | eauto]. }
  unfold handler, try_except. rewrite Hopt.
  destruct (py_eq_str (dict_get event "httpMethod" (PStr "")) "POST") eqn:Hpost;
    cbn [negb]; [|now apply Hfail].
  destruct (method_POST_present _ Hpost) as [Hhas _]. rewrite Hhas. cbn [negb].
  destruct (truthy (dict_get event "body" (PStr ""))); cbn [negb]; [|now apply Hfail].
  destruct (decoded_body event _) as [body|e]; [|now apply Hfail].
  destruct (json_loads body) as [request_data|e].
  - unfold bind at 1, lift at 1.
    destruct (py_get request_data "pdfContent" (PStr "")) as [pdf_content|e];
      [|now apply Hfail].
    destruct (truthy pdf_content); cbn [negb]; [|now apply Hfail].
    destruct pdf_content as [| | | |s| |]; try now apply Hfail.
    unfold bind at 1.
    destruct (extract s log) as [[patient_data|e] log']; [|now apply Hfail].
    unfold bind, lift.
    destruct (py_get patient_data _ _); [|now apply Hfail].
    eexists 200%Z, _, log'. split; [reflexivity|]. intros H. now contradiction H.
  - destruct (is_JSONDecodeError e); now apply Hfail.
Qed.

(** X16. The handler answers 500 in three cases only: [json.loads] raises
    something other than [JSONDecodeError] on the request body; the body is
    JSON but not an object; or, on a validated request, the first Bedrock call
    raises an exception whose message holds a lone surrogate, so that logging
    it in the Extractor's outer [except] clause raises.  No PDF payload and no
    other outcome of the Bedrock calls leads to a 500. *)
Theorem internal_error_causes
    (event : list (pystr * value)) (context : option pystr) (log log' : list Request)
    (response : value) :
  handler bedrock event context log = (Return response, log') ->
  status_code response = Some (PInt 500) ->
  py_eq_str (dict_get event "httpMethod" (PStr "")) "POST" = true
  /\ truthy (dict_get event "body" (PStr "")) = true
  /\ exists body,
       decoded_body event (dict_get event "body" (PStr "")) = Return body
       /\ ((exists e, json_loads body = Raise e /\ is_JSONDecodeError e = false)
           \/ (exists request_data,
                 json_loads body = Return request_data /\ is_dict request_data = false)
           \/ (exists pdf_content pdf_bytes e,
                 validated event pdf_content
                 /\ b64decode (PStr pdf_content) = Return pdf_bytes
                 /\ startswith Byte.eqb pdf_bytes (blit "%PDF-") = true
                 /\ bedrock log (primary_request pdf_bytes) = Raise e
                 /\ printable (exn_str e) = false)).
Proof.
  intros Hrun Hstatus.
  assert (H : status_code (match fst (handler bedrock event context log) with
                           | Return r => r
                           | Raise _ => PNone
                           end) = Some (PInt 500)) by now rewrite Hrun.
  clear Hrun Hstatus. revert H.
  unfold handler, try_except.
  destruct (py_eq_str (dict_get event "httpMethod" (PStr "")) "OPTIONS") eqn:Hopt;
    [discriminate|].
  destruct (py_eq_str (dict_get event "httpMethod" (PStr "")) "POST") eqn:Hpost;
    cbn [negb]; [|discriminate].
  destruct (method_POST_present _ Hpost) as [Hhas _]. rewrite Hhas. cbn [negb].
  destruct (truthy (dict_get event "body" (PStr ""))) eqn:Hbody; cbn [negb];
    [|discriminate].
  destruct (decoded_body event _) as [body|e] eqn:Hdec; [|discriminate].
  intros H. split; [reflexivity|]. split; [reflexivity|]. exists body.
  split; [reflexivity|]. revert H.
  destruct (json_loads body) as [request_data|e] eqn:Hjson.
  - unfold bind at 1, lift at 1.
    destruct request_data as [| | | | | |d];
      try (intros _; right; left; eexists; split; reflexivity).
    cbn [py_get].
    destruct (truthy (dict_get d "pdfContent" (PStr ""))) eqn:Hpdf; cbn [negb];
      [|discriminate].
    destruct (dict_get d "pdfContent" (PStr "")) as [| | | |s| |] eqn:Hget;
      try discriminate.
    unfold bind at 1.
    destruct (extract_outcome bedrock s log)
      as [(patient_data & log1 & -> & Hdict & _)
         |(pdf_bytes & e & e' & Hd & Hh & Hc & Hm & _)].
    + destruct patient_data; discriminate.
    + intros _. right. right. exists s, pdf_bytes, e.
      repeat split; try assumption.
      exists body, (PDict d). repeat split; try assumption.
      * cbn [py_get]. now rewrite Hget.
      * intros ->. discriminate.
  - destruct (is_JSONDecodeError e) eqn:He; [discriminate|].
    intros _. left. now exists e.
Qed.


(** X19. Apart from the preflight, the handler answers 200 only to a
    request that passed the whole validation: a POST whose decoded body is a
    JSON object with a non-empty string under "pdfContent". *)
Theorem success_only_for_validated_requests
    (event : list (pystr * value)) (context : option pystr) (log log' : list Request)
    (response : value) :
  handler bedrock event context log = (Return response, log') ->
  status_code response = Some (PInt 200) ->
  py_eq_str (dict_get event "httpMethod" (PStr "")) "OPTIONS" = false ->
  exists pdf_content, validated event pdf_content.
Proof.
  intros Hrun Hstatus Hopt.
  assert (H : status_code (match fst (handler bedrock event context log) with
                           | Return r => r
                           | Raise _ => PNone
                           end) = Some (PInt 200)) by now rewrite Hrun.
  clear Hrun Hstatus. revert H.
  unfold handler, try_except. rewrite Hopt.
  destruct (py_eq_str (dict_get event "httpMethod" (PStr "")) "POST") eqn:Hpost;
    cbn [negb]; [|discriminate].
  destruct (method_POST_present _ Hpost) as [Hhas _]. rewrite Hhas. cbn [negb].
  destruct (truthy (dict_get event "body" (PStr ""))) eqn:Hbody; cbn [negb];
    [|discriminate].
  destruct (decoded_body event _) as [body|e] eqn:Hdec; [|discriminate].
  destruct (json_loads body) as [request_data|e] eqn:Hjson;
    [|destruct (is_JSONDecodeError e); discriminate].
  unfold bind at 1, lift at 1.
  destruct (py_get request_data "pdfContent" (PStr "")) as [pdf_content|e] eqn:Hget;
    [|discriminate].
  destruct (truthy pdf_content) eqn:Hpdf; cbn [negb]; [|discriminate].
  destruct pdf_content as [| | | |s| |]; try discriminate.
  intros _. exists s.
  split; [exact Hpost|]. split; [exact Hbody|].
  exists body, request_data. repeat split; try assumption.
  intros ->. discriminate.
Qed.

(** X17. A request flagged as base64 whose body decodes to a non-empty text
    is handled exactly as the plain POST that carries that text. *)
Theorem base64_body_handled_as_its_text
    (event : list (pystr * value)) (context : option pystr) (log : list Request)
    (raw : bytes) (text : pystr) :
  py_eq_str (dict_get event "httpMethod" (PStr "")) "POST" = true ->
  truthy (dict_get event "body" (PStr "")) = true ->
  truthy (dict_get event "isBase64Encoded" (PBool false)) = true ->
  b64decode (dict_get event "body" (PStr "")) = Return raw ->
  decode_utf8 raw = Return text ->
  text <> [] ->
  handler bedrock event context log =
    handler bedrock [("httpMethod", PStr "POST"); ("body", PStr text)] context log.
Proof.
  intros Hpost Hbody Hflag Hb64 Hutf Htext.
  apply handler_same_decoded_body with (body := PStr text); try assumption.
  - reflexivity.
  - destruct text; [congruence | reflexivity].
  - unfold decoded_body. now rewrite Hflag, Hb64, Hutf.
  - reflexivity.
Qed.

(** X25. Every exception that reaches the top-level [except] clause of the
    handler has a message without surrogates: the [print] of that clause
    cannot raise, and the 500 response is always returned. *)
Theorem internal_error_message_is_printable
    (event : list (pystr * value)) (context : option pystr) (log log' : list Request)
    (response : value) :
  handler bedrock event context log = (Return response, log') ->
  status_code response = Some (PInt 500) ->
  exists message,
    response = PDict [("statusCode", PInt 500); ("headers", cors_headers);
                      ("body", PStr (json_dumps
                         (PDict [("success", PBool false);
                                 ("error", PStr ("Internal server error: " ++ message))])))]
    /\ py_print ("Error processing PDF: " ++ message) = Return tt.
Proof.
  assert (Hfound : forall e (log1 : list Request),
             printable (exn_str e) = true ->
             (Return (http_response 500 (failure ("Internal server error: " ++ exn_str e))),
              log1) = (Return response, log') ->
             exists message,
               response = PDict [("statusCode", PInt 500); ("headers", cors_headers);
                                 ("body", PStr (json_dumps
                                    (PDict [("success", PBool false);
                                            ("error", PStr ("Internal server error: "
                                                            ++ message))])))]
               /\ py_print ("Error processing PDF: " ++ message) = Return tt).
  { intros e log1 Hm Heq. exists (exn_str e).
    assert (Hr : response
                 = http_response 500 (failure ("Internal server error: " ++ exn_str e)))
      by congruence.
    subst response. split; [reflexivity|].
    apply py_print_printable. printable_parts. }
  intros Hrun Hstatus.
  assert (Hother : forall status (body : value) (log1 : list Request),
             (status =? 500)%Z = false ->
             (Return (http_response status body), log1) = (Return response, log') ->
             exists message,
               response = PDict [("statusCode", PInt 500); ("headers", cors_headers);
                                 ("body", PStr (json_dumps
                                    (PDict [("success", PBool false);
                                            ("error", PStr ("Internal server error: "
                                                            ++ message))])))]
               /\ py_print ("Error processing PDF: " ++ message) = Return tt).
  { intros status body log1 Hs Heq. exfalso.
    assert (response = http_response status body) by congruence. subst response.
    cbn in Hstatus. injection Hstatus as ->. discriminate. }
  revert Hrun.
  unfold handler, try_except.
  destruct (py_eq_str (dict_get event "httpMethod" (PStr "")) "OPTIONS") eqn:Hopt.
  { intros Heq. exfalso.
    assert (Hr : response = PDict [("statusCode", PInt 200);
                                   ("headers", preflight_headers);
                                   ("body", PStr "")])
      by (injection Heq as <- _; reflexivity).
    subst response. discriminate. }
  destruct (py_eq_str (dict_get event "httpMethod" (PStr "")) "POST") eqn:Hpost;
    cbn [negb]; [|now apply Hother].
  destruct (method_POST_present _ Hpost) as [Hhas _]. rewrite Hhas. cbn [negb].
  destruct (truthy (dict_get event "body" (PStr ""))); cbn [negb]; [|now apply Hother].
  destruct (decoded_body event _) as [body|e]; [|now apply Hother].
  destruct (json_loads body) as [request_data|e] eqn:Hjson.
  - unfold bind at 1, lift at 1.
    destruct (py_get request_data "pdfContent" (PStr "")) as [pdf_content|e] eqn:Hget.
    + destruct (truthy pdf_content); cbn [negb]; [|now apply Hother].
      destruct pdf_content as [| | | |s| |]; try now apply Hother.
      unfold bind at 1.
      destruct (extract_outcome bedrock s log)
        as [(patient_data & log1 & -> & Hdict & _)
           |(pdf_bytes & e & e' & _ & _ & _ & _ & Hr & ->)].
      * destruct patient_data as [| | | | | |d]; try discriminate.
        unfold bind, lift. cbn [py_get]. now apply Hother.
      * cbn [is_Exception]. apply Hfound. now apply py_print_raises in Hr.
    + cbn [is_Exception]. apply Hfound.
      destruct request_data; try discriminate; injection Hget as <-;
        cbn [exn_str]; printable_text.
  - destruct (is_JSONDecodeError e); [now apply Hother|].
    cbn [is_Exception]. apply Hfound. exact (json_loads_error_printable _ Hjson).
Qed.

End HandlerMore.

(* ================================================================= *)
(** ** The further properties on concrete requests (reference runtime) *)

(** X1 on an OPTIONS request that also carries a body and the base64 flag. *)
Lemma preflight_witness :
  handler (scripted []) options_with_body None []
  = (Return (PDict [("statusCode", PInt 200); ("headers", preflight_headers);
                    ("body", PStr "")]), []).
Proof.
  apply (@preflight_short_circuits RefRuntime (scripted []) options_with_body None []).
  reflexivity.
Defined.

(** X2 on a lower-case "post". *)
Lemma other_methods_witness :
  handler (scripted [])
    [("httpMethod", PStr "post"); ("body", PStr (quoted "{'pdfContent': 'JVBERi0xLjQK'}"))]
    None []
  = (Return (http_response 405
               (failure "Method not allowed. Only POST requests are supported.")), []).
Proof.
  apply (@other_methods_answered_405 RefRuntime (scripted [])
           [("httpMethod", PStr "post");
            ("body", PStr (quoted "{'pdfContent': 'JVBERi0xLjQK'}"))] None []);
    reflexivity.
Defined.

(** X3 on a POST whose body is [None]. *)
Lemma empty_body_witness :
  handler (scripted []) [("httpMethod", PStr "POST"); ("body", PNone)] None []
  = (Return (http_response 400 (failure "No PDF content provided in request body.")), []).
Proof.
  apply (@empty_body_answered_400 RefRuntime (scripted [])
           [("httpMethod", PStr "POST"); ("body", PNone)] None []); reflexivity.
Defined.

(** X4 on a flagged body with a wrong padding. *)
Lemma undecodable_body_witness :
  truthy (dict_get (post_base64 "abc") "isBase64Encoded" (PBool false)) = true
  /\ handler (scripted []) (post_base64 "abc") None []
     = (Return (http_response 400
                  (failure "Failed to decode request body: Incorrect padding")), []).
Proof.
  apply (@undecodable_body_answered_400 RefRuntime (scripted []) (post_base64 "abc")
           None [] (mk_exn ValueError "Incorrect padding")); reflexivity.
Defined.

(** X5 on a body cut in the middle of an object. *)
Lemma malformed_json_witness :
  handler (scripted []) (post (quoted "{'pdfContent': ")) None []
  = (Return (http_response 400
               (failure ("Invalid JSON in request body: "
                         ++ exn_str Ref.json_decode_error))), []).
Proof.
  apply (@malformed_json_answered_400 RefRuntime (scripted [])
           (post (quoted "{'pdfContent': ")) None []
           (PStr (quoted "{'pdfContent': ")) Ref.json_decode_error); reflexivity.
Defined.

(** X6 on a POST that carries its body as an object, not as a text. *)
Lemma other_json_failure_witness :
  handler (scripted [])
    [("httpMethod", PStr "POST"); ("body", PDict [("pdfContent", PStr "JVBERi0xLjQK")])]
    None []
  = (Return (http_response 500
               (failure ("Internal server error: "
                         ++ "the JSON object must be str, bytes or bytearray, not dict"))),
     []).
Proof.
  apply (@other_json_failure_answered_500 RefRuntime (scripted [])
           [("httpMethod", PStr "POST");
            ("body", PDict [("pdfContent", PStr "JVBERi0xLjQK")])] None []
           (PDict [("pdfContent", PStr "JVBERi0xLjQK")])
           (mk_exn TypeError "the JSON object must be str, bytes or bytearray, not dict"));
    reflexivity.
Defined.

(** X7 on an object that spells the key differently. *)
Lemma missing_pdf_content_witness :
  handler (scripted []) (post (quoted "{'pdf': 'JVBERi0xLjQK'}")) None []
  = (Return (http_response 400
               (failure ("No PDF content found in request. Expected "
                         ++ dq ++ "pdfContent" ++ dq ++ " field."))), []).
Proof.
  apply (@missing_pdf_content_answered_400 RefRuntime (scripted [])
           (post (quoted "{'pdf': 'JVBERi0xLjQK'}")) None []
           (PStr (quoted "{'pdf': 'JVBERi0xLjQK'}")) [("pdf", PStr "JVBERi0xLjQK")]);
    reflexivity.
Defined.

(** X8 on a numeric pdfContent. *)
Lemma non_string_pdf_content_witness :
  handler (scripted []) (post (quoted "{'pdfContent': 5}")) None []
  = (Return (http_response 400 (failure "PDF content must be a string.")), []).
Proof.
  apply (@non_string_pdf_content_answered_400 RefRuntime (scripted [])
           (post (quoted "{'pdfContent': 5}")) None []
           (PStr (quoted "{'pdfContent': 5}")) [("pdfContent", PInt 5)]);
    first [reflexivity | discriminate].
Defined.

(** X9 on a record without debugInfo, with a request id. *)
Lemma success_response_witness :
  handler (scripted [Return (quoted "{'firstName': 'Jane'}")])
    (post (quoted "{'pdfContent': 'JVBERi0xLjQK'}")) (Some "req-1") []
  = (Return (http_response 200
               (PDict [("success", PBool true);
                       ("message", PStr "PDF received and processed successfully");
                       ("contentLength", PInt 12);
                       ("timestamp", PStr "req-1");
                       ("debugInfo", PStr "No debug info available");
                       ("patientData", PDict [("firstName", PStr "Jane")])])),
     [primary_request pdf_1_4_bytes]).
Proof.
  apply (@validated_request_success_response RefRuntime
           (scripted [Return (quoted "{'firstName': 'Jane'}")])
           (post (quoted "{'pdfContent': 'JVBERi0xLjQK'}")) (Some "req-1") []
           [primary_request pdf_1_4_bytes] pdf_1_4 [("firstName", PStr "Jane")]);
    [|reflexivity].
  split; [reflexivity|]. split; [reflexivity|].
  exists (PStr (quoted "{'pdfContent': 'JVBERi0xLjQK'}")),
         (PDict [("pdfContent", PStr pdf_1_4)]).
  repeat split; discriminate.
Defined.

(** X10 on a response that reports nothing empty. *)
Lemma single_call_witness :
  snd (extract_patient_data_with_claude_pdf_support
         (scripted [Return "I cannot read this document."]) pdf_1_4 [])
  = [] ++ [primary_request pdf_1_4_bytes]
  /\ (printable (py_slice "I cannot read this document." 0 200) = true ->
      extract_patient_data_with_claude_pdf_support
        (scripted [Return "I cannot read this document."]) pdf_1_4 []
      = parse_guarded "I cannot read this document." ([] ++ [primary_request pdf_1_4_bytes])).
Proof.
  apply (@single_call_without_empty_report RefRuntime
           (scripted [Return "I cannot read this document."])
           pdf_1_4 pdf_1_4_bytes [] "I cannot read this document."); reflexivity.
Defined.

(** X11 on braces around something that is not JSON. *)
Lemma unparsable_json_witness :
  extract_patient_data_with_claude_pdf_support (scripted [Return "{oops}"]) pdf_1_4 []
  = (Return (patient_record
               ("JSON parsing error: " ++ exn_str Ref.json_decode_error
                ++ ". Response: " ++ "{oops}")),
     [primary_request pdf_1_4_bytes]).
Proof.
  apply (@unparsable_json_record RefRuntime (scripted [Return "{oops}"])
           pdf_1_4 pdf_1_4_bytes [] [primary_request pdf_1_4_bytes] "{oops}" "{oops}"
           Ref.json_decode_error);
    first [reflexivity | discriminate].
Defined.

(** X12 on the response "} {". *)
Lemma inverted_braces_witness :
  exists e,
    Ref.json_loads (PStr []) = Raise e
    /\ extract_patient_data_with_claude_pdf_support (scripted [Return "} {"]) pdf_1_4 []
       = (Return (patient_record
                    (if is_ValueError e
                     then "JSON parsing error: " ++ exn_str e ++ ". Response: "
                          ++ firstn 200 "} {"
                     else "Bedrock Claude PDF support error: " ++ exn_str e)),
          [primary_request pdf_1_4_bytes]).
Proof.
  apply (@inverted_braces_are_a_parse_error RefRuntime (scripted [Return "} {"])
           pdf_1_4 pdf_1_4_bytes [] [primary_request pdf_1_4_bytes] "} {" "} {");
    first [reflexivity | split; [discriminate | reflexivity]].
Defined.





(** X15 on a request answered 500. *)
Lemma success_flag_witness :
  exists status payload log',
    handler (scripted []) (post "[1, 2]") None [] =
      (Return (PDict [("statusCode", PInt status); ("headers", cors_headers);
                      ("body", PStr (json_dumps
                         (PDict (("success", PBool (status =? 200)%Z) :: payload))))]),
       log')
    /\ (status <> 200%Z -> exists error, payload = [("error", PStr error)]).
Proof.
  apply (@success_flag_matches_status RefRuntime (scripted []) (post "[1, 2]") None []).
  reflexivity.
Defined.

(** X16 on the same request: its body is JSON, and not an object. *)
Lemma internal_error_causes_witness :
  py_eq_str (dict_get (post "[1, 2]") "httpMethod" (PStr "")) "POST" = true
  /\ truthy (dict_get (post "[1, 2]") "body" (PStr "")) = true
  /\ exists body,
       decoded_body (post "[1, 2]") (dict_get (post "[1, 2]") "body" (PStr "")) = Return body
       /\ ((exists e, json_loads body = Raise e /\ is_JSONDecodeError e = false)
           \/ (exists request_data,
                 json_loads body = Return request_data /\ is_dict request_data = false)
           \/ (exists pdf_content pdf_bytes e,
                 validated (post "[1, 2]") pdf_content
                 /\ b64decode (PStr pdf_content) = Return pdf_bytes
                 /\ startswith Byte.eqb pdf_bytes (blit "%PDF-") = true
                 /\ scripted [] [] (primary_request pdf_bytes) = Raise e
                 /\ printable (exn_str e) = false)).
Proof.
  apply (@internal_error_causes RefRuntime (scripted [])
           (post "[1, 2]") None [] []
           (http_response 500
              (failure "Internal server error: 'list' object has no attribute 'get'")));
    reflexivity.
Defined.


(** X17 on the base64 of [{"pdfContent": "aGVsbG8="}]. *)
Lemma base64_body_witness :
  handler (scripted []) (post_base64 "eyJwZGZDb250ZW50IjogImFHVnNiRzg9In0=") None []
  = handler (scripted [])
      [("httpMethod", PStr "POST"); ("body", PStr (quoted "{'pdfContent': 'aGVsbG8='}"))]
      None [].
Proof.
  apply (@base64_body_handled_as_its_text RefRuntime (scripted [])
           (post_base64 "eyJwZGZDb250ZW50IjogImFHVnNiRzg9In0=") None []
           (blit (quoted "{'pdfContent': 'aGVsbG8='}"))
           (quoted "{'pdfContent': 'aGVsbG8='}"));
    first [reflexivity | discriminate].
Defined.

(** X19 on the successful request above. *)
Lemma success_only_witness :
  exists pdf_content, validated (post (quoted "{'pdfContent': 'JVBERi0xLjQK'}")) pdf_content.
Proof.
  apply (@success_only_for_validated_requests RefRuntime
           (scripted [Return (quoted "{'firstName': 'Jane'}")])
           (post (quoted "{'pdfContent': 'JVBERi0xLjQK'}")) None []
           [primary_request pdf_1_4_bytes]
           (http_response 200
              (PDict [("success", PBool true);
                      ("message", PStr "PDF received and processed successfully");
                      ("contentLength", PInt 12);
                      ("timestamp", PStr "unknown");
                      ("debugInfo", PStr "No debug info available");
                      ("patientData", PDict [("firstName", PStr "Jane")])])));
    reflexivity.
Defined.

(** X25 on the request whose body is a JSON array. *)
Lemma internal_error_message_witness :
  exists message,
    http_response 500
      (failure "Internal server error: 'list' object has no attribute 'get'")
    = PDict [("statusCode", PInt 500); ("headers", cors_headers);
             ("body", PStr (json_dumps
                (PDict [("success", PBool false);
                        ("error", PStr ("Internal server error: " ++ message))])))]
    /\ py_print ("Error processing PDF: " ++ message) = Return tt.
Proof.
  apply (@internal_error_message_is_printable RefRuntime (scripted [])
           (post "[1, 2]") None [] []
           (http_response 500
              (failure "Internal server error: 'list' object has no attribute 'get'")));
    reflexivity.
Defined.
